(** * Data-stream administration over the document store's HTTP API

    A shallow embedding of [data_stream.py] (class [OpenSearch]) and the
    properties of its operations.

    The program talks to three things outside itself: the store (through
    the [requests] library), the wall clock ([time.time]) and the logger.
    All three are made explicit: every method is a function from a state
    (the administrator object and the outside world) to a run: the state
    it ends in, the chronological list of what it did (HTTP calls with
    their outcomes, clock readings, log records) and its result.  State
    and events survive an exception, so a statement can speak about what
    had been sent before a failure. *)

From Stdlib Require Import ZArith QArith Bool List String Ascii Lia.
From Stdlib Require Import DecimalString.
Import ListNotations.

Local Open Scope list_scope.
Local Open Scope string_scope.

(** ** Python values

    What [response.json()] returns, and what the program then subscripts,
    iterates and formats.  An object is the list of its fields in
    document order, one per key, as the decoder leaves them in a dict.
    JSON numbers with a fraction or an exponent (Python floats) are left
    out of the value type: no field that the program reads carries one. *)

#[warnings="-register-all"]
Inductive JSON : Type :=
| JNull
| JBool (b : bool)
| JInt (z : Z)
| JStr (s : string)
| JArr (items : list JSON)
| JObj (fields : list (string * JSON)).

(** The exceptions a run can end with. [RequestException] stands for every
    error [requests] raises without handing back a response (connection
    refused, timeout, TLS failure, malformed URL); [HTTPError] is the one
    raised by [Response.raise_for_status]. *)
Inductive Exn : Type :=
| RequestException
| HTTPError (status : Z)
| JSONDecodeError
| KeyError
| IndexError
| TypeError
| ValueError
| ZeroDivisionError
| OverflowError.

Inductive Result (A : Type) : Type :=
| Ok (a : A)
| Raised (e : Exn).
Arguments Ok {A} a.
Arguments Raised {A} e.

(** ** The wire *)

Inductive Method : Type := GET | PUT | POST | DELETE.

Record HTTPBasicAuth : Type := mkAuth {
  auth_username : string;
  auth_password : string
}.

(** One call of [requests.get/put/post/delete(url, json=..., auth=...,
    verify=False)]. *)
Record Request : Type := mkRequest {
  method : Method;
  url : string;
  json : option JSON;
  req_auth : HTTPBasicAuth;
  verify : bool
}.

(** [body = None] is a payload that is not a JSON document: [json()]
    raises on it. *)
Record Response : Type := mkResponse {
  status_code : Z;
  body : option JSON
}.

Inductive Outcome : Type :=
| Responded (r : Response)
| Failed.

(** ** The pieces of the Python runtime that are taken as given

    Python floats ([time.time()], the result of [int / int]) with the
    three operations the program applies to them, [int(str)], and [repr]
    of a container.  [float_gt_int] and [float_eq_int] are Python's [>]
    and [==] between a float and an int, which compare exactly; the one
    law is that they exclude each other. *)
Class Runtime : Type := {
  float : Type;
  truediv : Z -> Z -> Result float;
  float_sub : float -> float -> float;
  float_gt_int : float -> Z -> bool;
  float_eq_int : float -> Z -> bool;
  float_gt_not_eq :
    forall x z, float_gt_int x z = true -> float_eq_int x z = false;
  int_of_str : string -> option Z;
  repr : JSON -> string
}.

(** ** Subscripting, iterating, comparing, formatting *)

Fixpoint dict_get (key : string) (fields : list (string * JSON)) : option JSON :=
  match fields with
  | [] => None
  | (k, v) :: rest => if String.eqb k key then Some v else dict_get key rest
  end.

(** The one-character strings of a string, in order. *)
Fixpoint chars (s : string) : list string :=
  match s with
  | EmptyString => []
  | String c rest => String c EmptyString :: chars rest
  end.

(** [seq[i]] for an int [i]: negative positions count from the end. *)
Definition seq_getitem {A : Type} (xs : list A) (i : Z) : Result A :=
  let n := Z.of_nat (List.length xs) in
  let j := if (i <? 0)%Z then (i + n)%Z else i in
  if ((0 <=? j) && (j <? n))%Z%bool then
    match nth_error xs (Z.to_nat j) with
    | Some x => Ok x
    | None => Raised IndexError
    end
  else Raised IndexError.

(** A bool is an int in Python: [True] indexes like 1. *)
Definition as_index (k : JSON) : option Z :=
  match k with
  | JInt z => Some z
  | JBool b => Some (if b then 1 else 0)%Z
  | _ => None
  end.

Definition hashable (k : JSON) : bool :=
  match k with
  | JArr _ | JObj _ => false
  | _ => true
  end.

(** [x[k]].  The keys of a decoded JSON object are all strings, so any
    other hashable key is simply missing. *)
Definition py_getitem (x k : JSON) : Result JSON :=
  match x with
  | JObj fields =>
      match k with
      | JStr s =>
          match dict_get s fields with
          | Some v => Ok v
          | None => Raised KeyError
          end
      | _ => if hashable k then Raised KeyError else Raised TypeError
      end
  | JArr items =>
      match as_index k with
      | Some i => seq_getitem items i
      | None => Raised TypeError
      end
  | JStr s =>
      match as_index k with
      | Some i =>
          match seq_getitem (chars s) i with
          | Ok c => Ok (JStr c)
          | Raised e => Raised e
          end
      | None => Raised TypeError
      end
  | _ => Raised TypeError
  end.

(** [for idx in x]: the elements of a list, the characters of a string,
    the keys of a dict. *)
Definition py_iter (x : JSON) : Result (list JSON) :=
  match x with
  | JArr items => Ok items
  | JStr s => Ok (map JStr (chars s))
  | JObj fields => Ok (map (fun kv => JStr (fst kv)) fields)
  | _ => Raised TypeError
  end.

(** [a == b] between two dict keys, or between any value and a string
    ([True == 1]; a list or a dict equals no key and no string). *)
Definition py_eq (a b : JSON) : bool :=
  match a, b with
  | JNull, JNull => true
  | JStr s, JStr t => String.eqb s t
  | JArr _, _ | JObj _, _ | _, JArr _ | _, JObj _ => false
  | _, _ =>
      match as_index a, as_index b with
      | Some i, Some j => (i =? j)%Z
      | _, _ => false
      end
  end.

Definition str_of_int (z : Z) : string :=
  NilZero.string_of_int (Z.to_int z).

Section Administrator.

Context {RT : Runtime}.

(** [str(v)], as an f-string applies it. *)
Definition py_str (v : JSON) : string :=
  match v with
  | JStr s => s
  | JNull => "None"
  | JBool true => "True"
  | JBool false => "False"
  | JInt z => str_of_int z
  | _ => repr v
  end.

(** [int(v)]. *)
Definition py_int (v : JSON) : Result Z :=
  match v with
  | JInt z => Ok z
  | JBool b => Ok (if b then 1 else 0)%Z
  | JStr s =>
      match int_of_str s with
      | Some z => Ok z
      | None => Raised ValueError
      end
  | _ => Raised TypeError
  end.

(** ** The administrator object, log records, events, state *)

Record OpenSearch : Type := mkOpenSearch {
  opensearch_url : string;
  username : string;
  password : string;
  auth : HTTPBasicAuth
}.

(** [OpenSearch.__init__] *)
Definition OpenSearch_init (opensearch_url username password : string) : OpenSearch :=
  {| opensearch_url := opensearch_url;
     username := username;
     password := password;
     auth := mkAuth username password |}.

Inductive Level : Type := INFO | ERROR.

(** The log messages, one constructor per f-string of the source, with
    the values that the f-string interpolates. *)
Inductive Msg : Type :=
| ConnectionSuccessful
    (* "Connection to OpenSearch successful" *)
| CreatedIndexTemplate (index_template_name : string)
    (* "Created index template {index_template_name}" *)
| DataStreamAlreadyExists (data_stream_name : string)
    (* "Data stream {data_stream_name} already exists" *)
| CreatedDataStream (data_stream_name : string)
    (* "Created data stream {data_stream_name}" *)
| DataStreamDoesNotExist (data_stream_name : string)
    (* "Data stream {data_stream_name} does not exist" *)
| RolloverDataStream (data_stream_name : string)
    (* "Rollover data stream {data_stream_name}" *)
| DeletedIndex (index_name : JSON)
    (* "Deleted index {index_name}" *)
| FoundIndices (indices : list JSON) (data_stream_name : string)
    (* "Found indices {indices} for data stream {data_stream_name}" *)
| DeletingIndex (index : JSON) (age : float)
    (* "Deleting index {index}, age: {age} seconds" *)
| FinishedCleaning (data_stream_name : string).
    (* "Finished cleaning data stream {data_stream_name}" *)

Inductive Event : Type :=
| EvHttp (req : Request) (out : Outcome)
| EvClock (t : float)
| EvLog (level : Level) (msg : Msg).

(** The outside world: how the store answers a call and what the clock
    reads, both free to depend on everything that happened before. *)
Variable W : Type.
Variable serve : W -> Request -> W * Outcome.
Variable tick : W -> W * float.

Record St : Type := mkSt {
  self : OpenSearch;
  world : W
}.

(** What a call leaves behind: the state it ends in, the events it
    produced, in order, and its value or the exception it raised. *)
Record Run (A : Type) : Type := mkRun {
  final : St;
  emitted : list Event;
  result : Result A
}.
Arguments mkRun {A} final emitted result.
Arguments final {A} r.
Arguments emitted {A} r.
Arguments result {A} r.

Definition M (A : Type) : Type := St -> Run A.

Definition ret {A : Type} (a : A) : M A := fun st => mkRun st [] (Ok a).

Definition raise {A : Type} (e : Exn) : M A := fun st => mkRun st [] (Raised e).

Definition bind {A B : Type} (m : M A) (k : A -> M B) : M B :=
  fun st =>
    match m st with
    | mkRun st1 first (Ok a) =>
        match k a st1 with
        | mkRun st2 second r => mkRun st2 (first ++ second)%list r
        end
    | mkRun st1 first (Raised e) => mkRun st1 first (Raised e)
    end.

Definition lift {A : Type} (r : Result A) : M A := fun st => mkRun st [] r.

Definition get_self : M OpenSearch := fun st => mkRun st [] (Ok (self st)).

Definition emit (e : Event) : M unit := fun st => mkRun st [e] (Ok tt).

Notation "x <- m ;; k" := (bind m (fun x => k))
  (at level 61, m at next level, right associativity).
Notation "m ;;; k" := (bind m (fun _ => k))
  (at level 61, right associativity).

Definition logging_info (msg : Msg) : M unit := emit (EvLog INFO msg).
Definition logging_error (msg : Msg) : M unit := emit (EvLog ERROR msg).

(** [time.time()] *)
Definition time_time : M float :=
  fun st =>
    let (w, t) := tick (world st) in
    mkRun (mkSt (self st) w) [EvClock t] (Ok t).

(** One call into [requests]: the call and its outcome are recorded, and
    a call that yields no response raises. *)
Definition requests_call (req : Request) : M Response :=
  fun st =>
    let (w, out) := serve (world st) req in
    mkRun (mkSt (self st) w) [EvHttp req out]
          match out with
          | Responded r => Ok r
          | Failed => Raised RequestException
          end.

Definition requests_get (url : string) (a : HTTPBasicAuth) : M Response :=
  requests_call (mkRequest GET url None a false).

Definition requests_put (url : string) (payload : option JSON) (a : HTTPBasicAuth)
  : M Response :=
  requests_call (mkRequest PUT url payload a false).

Definition requests_post (url : string) (a : HTTPBasicAuth) : M Response :=
  requests_call (mkRequest POST url None a false).

Definition requests_delete (url : string) (a : HTTPBasicAuth) : M Response :=
  requests_call (mkRequest DELETE url None a false).

(** [Response.raise_for_status] of [requests]: an [HTTPError] for a
    client error (4xx) or a server error (5xx), nothing for any other
    status. *)
Definition is_error_status (s : Z) : bool :=
  ((400 <=? s) && (s <? 600))%Z.

Definition raise_for_status (response : Response) : M unit :=
  if is_error_status (status_code response)
  then raise (HTTPError (status_code response))
  else ret tt.

(** [Response.json] *)
Definition response_json (response : Response) : M JSON :=
  match body response with
  | Some v => ret v
  | None => raise JSONDecodeError
  end.

(** ** The methods of [OpenSearch] *)

Definition check_connection : M unit :=
  this <- get_self ;;
  let url := opensearch_url this ++ "/_cluster/health" in
  response <- requests_get url (auth this) ;;
  raise_for_status response ;;;
  logging_info ConnectionSuccessful.

Definition does_data_stream_exist (data_stream_name : string) : M bool :=
  this <- get_self ;;
  let url := opensearch_url this ++ "/_data_stream/" ++ data_stream_name in
  response <- requests_get url (auth this) ;;
  ret (status_code response =? 200)%Z.

Definition index_template_body (data_stream_name : string) : JSON :=
  JObj [ ("index_patterns", JStr data_stream_name);
         ("data_stream", JObj []);
         ("priority", JInt 100) ].

Definition create_data_stream (data_stream_name : string) : M unit :=
  this <- get_self ;;
  let index_template_name := data_stream_name ++ "-template" in
  (* create index template *)
  let url := opensearch_url this ++ "/_index_template/" ++ index_template_name in
  let body := index_template_body data_stream_name in
  response <- requests_put url (Some body) (auth this) ;;
  raise_for_status response ;;;
  logging_info (CreatedIndexTemplate index_template_name) ;;;
  (* create data stream *)
  let url := opensearch_url this ++ "/_data_stream/" ++ data_stream_name in
  response <- requests_put url None (auth this) ;;
  let finish :=
    raise_for_status response ;;;
    logging_info (CreatedDataStream data_stream_name) in
  if (status_code response =? 400)%Z then
    decoded <- response_json response ;;
    err <- lift (py_getitem decoded (JStr "error")) ;;
    error <- lift (py_getitem err (JStr "type")) ;;
    if py_eq error (JStr "resource_already_exists_exception") then
      logging_info (DataStreamAlreadyExists data_stream_name)
    else finish
  else finish.

Definition rollover_data_stream (data_stream_name : string) : M unit :=
  present <- does_data_stream_exist data_stream_name ;;
  if negb present then
    logging_error (DataStreamDoesNotExist data_stream_name)
  else
    this <- get_self ;;
    let url := opensearch_url this ++ "/" ++ data_stream_name ++ "/_rollover" in
    response <- requests_post url (auth this) ;;
    raise_for_status response ;;;
    logging_info (RolloverDataStream data_stream_name).

Definition delete_index (index_name : JSON) : M unit :=
  this <- get_self ;;
  let url := opensearch_url this ++ "/" ++ py_str index_name in
  response <- requests_delete url (auth this) ;;
  raise_for_status response ;;;
  logging_info (DeletedIndex index_name).

(** *** [clean_old_data_stream_indices], block by block *)

(** [indices_creation_dates]: a dict from index to creation time, in
    insertion order.  Assigning to a key that is already there replaces
    the value and keeps the entry (and its first key) in place. *)
Definition Dates : Type := list (JSON * float).

Fixpoint dict_assign (key : JSON) (v : float) (d : Dates) : Dates :=
  match d with
  | [] => [(key, v)]
  | (k, old) :: rest =>
      if py_eq k key then (k, v) :: rest
      else (k, old) :: dict_assign key v rest
  end.

Definition dict_setitem (key : JSON) (v : float) (d : Dates) : Result Dates :=
  if hashable key then Ok (dict_assign key v d) else Raised TypeError.

(** [[f(x) for x in xs]] *)
Fixpoint comprehension {A B : Type} (f : A -> Result B) (xs : list A)
  : Result (list B) :=
  match xs with
  | [] => Ok []
  | x :: rest =>
      match f x with
      | Ok y =>
          match comprehension f rest with
          | Ok ys => Ok (y :: ys)
          | Raised e => Raised e
          end
      | Raised e => Raised e
      end
  end.

(** Lines 78-85: the descriptor query and the list of backing indices. *)
Definition backing_indices (data_stream_name : string) : M (list JSON) :=
  this <- get_self ;;
  let url := opensearch_url this ++ "/_data_stream/" ++ data_stream_name in
  response <- requests_get url (auth this) ;;
  raise_for_status response ;;;
  decoded <- response_json response ;;
  streams <- lift (py_getitem decoded (JStr "data_streams")) ;;
  data_stream <- lift (py_getitem streams (JInt 0)) ;;
  listed <- lift (py_getitem data_stream (JStr "indices")) ;;
  entries <- lift (py_iter listed) ;;
  indices <- lift (comprehension (fun idx => py_getitem idx (JStr "index_name")) entries) ;;
  logging_info (FoundIndices indices data_stream_name) ;;;
  ret indices.

(** Lines 90-94: the body of the first loop, for one index. *)
Definition record_creation_date (index : JSON) (dates : Dates) : M Dates :=
  this <- get_self ;;
  let url := opensearch_url this ++ "/" ++ py_str index in
  response <- requests_get url (auth this) ;;
  raise_for_status response ;;;
  decoded <- response_json response ;;
  entry <- lift (py_getitem decoded index) ;;
  settings <- lift (py_getitem entry (JStr "settings")) ;;
  index_settings <- lift (py_getitem settings (JStr "index")) ;;
  creation_date <- lift (py_getitem index_settings (JStr "creation_date")) ;;
  millis <- lift (py_int creation_date) ;;
  seconds <- lift (truediv millis 1000) ;;
  lift (dict_setitem index seconds dates).

(** Lines 88-94: the first loop. *)
Fixpoint creation_dates (indices : list JSON) (dates : Dates) : M Dates :=
  match indices with
  | [] => ret dates
  | index :: rest =>
      dates1 <- record_creation_date index dates ;;
      creation_dates rest dates1
  end.

(** Lines 97-99: the body of the second loop, for one entry. The clock is
    read once for the test and once more for the log record. *)
Definition delete_if_old (retention_period_days : Z) (entry : JSON * float) : M unit :=
  let (index, creation_date) := entry in
  now <- time_time ;;
  if float_gt_int (float_sub now creation_date)
                  (retention_period_days * 24 * 60 * 60)%Z
  then
    again <- time_time ;;
    logging_info (DeletingIndex index (float_sub again creation_date)) ;;;
    delete_index index
  else ret tt.

Fixpoint for_each {A : Type} (body : A -> M unit) (xs : list A) : M unit :=
  match xs with
  | [] => ret tt
  | x :: rest => body x ;;; for_each body rest
  end.

Definition clean_old_data_stream_indices
    (data_stream_name : string) (retention_period_days : Z) : M unit :=
  present <- does_data_stream_exist data_stream_name ;;
  if negb present then
    logging_error (DataStreamDoesNotExist data_stream_name)
  else
    (* get all indices for the data stream *)
    indices <- backing_indices data_stream_name ;;
    (* get the creation date of each index *)
    indices_creation_dates <- creation_dates indices [] ;;
    for_each (delete_if_old retention_period_days) indices_creation_dates ;;;
    logging_info (FinishedCleaning data_stream_name).

(** ** Vocabulary for the statements *)

Definition is_2xx (s : Z) : bool := ((200 <=? s) && (s <? 300))%Z.

(** The calls the methods make, as [Request]s. *)
Definition health_request (this : OpenSearch) : Request :=
  mkRequest GET (opensearch_url this ++ "/_cluster/health") None (auth this) false.

Definition data_stream_query (this : OpenSearch) (name : string) : Request :=
  mkRequest GET (opensearch_url this ++ "/_data_stream/" ++ name) None (auth this) false.

Definition template_upsert (this : OpenSearch) (name : string) : Request :=
  mkRequest PUT (opensearch_url this ++ "/_index_template/" ++ (name ++ "-template"))
            (Some (index_template_body name)) (auth this) false.

Definition data_stream_creation (this : OpenSearch) (name : string) : Request :=
  mkRequest PUT (opensearch_url this ++ "/_data_stream/" ++ name) None (auth this) false.

Definition index_query (this : OpenSearch) (index : JSON) : Request :=
  mkRequest GET (opensearch_url this ++ "/" ++ py_str index) None (auth this) false.

Definition index_deletion (this : OpenSearch) (index : JSON) : Request :=
  mkRequest DELETE (opensearch_url this ++ "/" ++ py_str index) None (auth this) false.

Definition method_eqb (a b : Method) : bool :=
  match a, b with
  | GET, GET | PUT, PUT | POST, POST | DELETE, DELETE => true
  | _, _ => false
  end.

(** The event is an HTTP call with the given method. *)
Definition is_request (m : Method) (e : Event) : bool :=
  match e with
  | EvHttp req _ => method_eqb (method req) m
  | _ => false
  end.

Definition is_http (e : Event) : bool :=
  match e with
  | EvHttp _ _ => true
  | _ => false
  end.

(** The event is not an HTTP call that went wrong: a call went wrong when
    it yielded no response or a response that [raise_for_status] rejects. *)
Definition answered_ok (e : Event) : bool :=
  match e with
  | EvHttp _ (Responded r) => negb (is_error_status (status_code r))
  | EvHttp _ Failed => false
  | _ => true
  end.


(** [response.json()["error"]["type"] == "resource_already_exists_exception"]
    evaluates, and to true. *)
Definition reports_already_exists (response : Response) : bool :=
  match body response with
  | Some decoded =>
      match py_getitem decoded (JStr "error") with
      | Ok err =>
          match py_getitem err (JStr "type") with
          | Ok error => py_eq error (JStr "resource_already_exists_exception")
          | Raised _ => false
          end
      | Raised _ => false
      end
  | None => false
  end.

(** [response.json()[index]["settings"]["index"]["creation_date"]] *)
Definition creation_date_of (response : Response) (index : JSON) : Result JSON :=
  match body response with
  | Some decoded =>
      match py_getitem decoded index with
      | Ok entry =>
          match py_getitem entry (JStr "settings") with
          | Ok settings =>
              match py_getitem settings (JStr "index") with
              | Ok index_settings => py_getitem index_settings (JStr "creation_date")
              | Raised e => Raised e
              end
          | Raised e => Raised e
          end
      | Raised e => Raised e
      end
  | None => Raised JSONDecodeError
  end.

(** The call leaves the administrator object as it found it. *)
Definition keeps_self {A : Type} (m : M A) : Prop :=
  forall st, self (final (m st)) = self st.

(** Every event of the call passes the test. *)
Definition all_events {A : Type} (test : Event -> bool) (m : M A) : Prop :=
  forall st, forallb test (emitted (m st)) = true.


Definition not_request (m : Method) (e : Event) : bool := negb (is_request m e).

End Administrator.

Arguments mkSt {W} self world.
Arguments self {W} s.
Arguments world {W} s.
Arguments mkRun {RT W A} final emitted result.
Arguments final {RT W A} r.
Arguments emitted {RT W A} r.
Arguments result {RT W A} r.

(** ** A runtime and two worlds to run the methods in *)

(** Floats taken as exact rationals: no rounding, no overflow. *)
Definition Q_truediv (a b : Z) : Result Q :=
  if (b =? 0)%Z then Raised ZeroDivisionError
  else Ok (inject_Z a / inject_Z b)%Q.

Definition Q_gt_int (x : Q) (z : Z) : bool := negb (Qle_bool x (inject_Z z)).

Definition Q_eq_int (x : Q) (z : Z) : bool := Qeq_bool x (inject_Z z).

(** [int(s)] on a string of ASCII digits; Python also takes a sign,
    blanks around the number and underscores inside it, which this reader
    rejects. *)
Fixpoint digits_value (s : string) (acc : Z) : option Z :=
  match s with
  | EmptyString => Some acc
  | String c rest =>
      let n := (Z.of_nat (nat_of_ascii c) - 48)%Z in
      if ((0 <=? n) && (n <=? 9))%Z%bool
      then digits_value rest (10 * acc + n)%Z
      else None
  end.

Definition decimal_of_str (s : string) : option Z :=
  match s with
  | EmptyString => None
  | _ => digits_value s 0
  end.

#[export, refine] Instance exact_runtime : Runtime :=
  {| float := Q;
     truediv := Q_truediv;
     float_sub := Qminus;
     float_gt_int := Q_gt_int;
     float_eq_int := Q_eq_int;
     int_of_str := decimal_of_str;
     (* a stand-in: no run below formats a list or a dict *)
     repr := fun _ => "<container>" |}.
Proof.
  abstract
    (intros x z; unfold Q_gt_int, Q_eq_int; intros Hgt;
     destruct (Qeq_bool x (inject_Z z)) eqn:Heq; [ | reflexivity ];
     apply Qeq_bool_iff in Heq;
     apply negb_true_iff in Hgt;
     assert (Hle : Qle_bool x (inject_Z z) = true)
       by (apply Qle_bool_iff; rewrite Heq; apply Qle_refl);
     congruence).
Defined.

(** A scripted world: the store answers with the next outcome of a list,
    whatever the call, and the clock reads the next time of a list. *)
Module Script.

Definition World : Type := (list Outcome * list Q)%type.

Definition serve (w : World) (_ : Request) : World * Outcome :=
  match fst w with
  | [] => (w, Failed)
  | out :: rest => ((rest, snd w), out)
  end.

Definition tick (w : World) : World * @float exact_runtime :=
  match snd w with
  | [] => (w, 0%Q)
  | t :: rest => ((fst w, rest), t)
  end.

Definition admin : OpenSearch :=
  OpenSearch_init "https://store:9200" "admin" "secret".

Definition start (answers : list Outcome) (times : list Q) : St World :=
  mkSt admin (answers, times).

Definition ok (v : JSON) : Outcome := Responded (mkResponse 200 (Some v)).

Definition status (s : Z) : Outcome := Responded (mkResponse s None).

(** The descriptor of a data stream with the given backing indices. *)
Definition descriptor (names : list string) : JSON :=
  JObj [ ("data_streams",
          JArr [ JObj [ ("name", JStr "logs");
                        ("indices",
                         JArr (map (fun n => JObj [("index_name", JStr n)]) names)) ] ]) ].

(** The settings of one index, with its creation date in milliseconds. *)
Definition settings (name millis : string) : JSON :=
  JObj [ (name, JObj [ ("settings",
                        JObj [ ("index", JObj [ ("creation_date", JStr millis) ]) ]) ]) ].

Definition already_exists : Outcome :=
  Responded (mkResponse 400
    (Some (JObj [ ("error", JObj [ ("type", JStr "resource_already_exists_exception") ]);
                  ("status", JInt 400) ]))).

End Script.

(** A toy store that behaves as section 6 of the specification describes
    the store's side of template upsert and data-stream creation.  An upsert
    (a PUT with a body) always succeeds; creating a data stream (a PUT
    without a body) succeeds once per address and afterwards answers 400
    with error type "resource_already_exists_exception"; a GET answers 200
    for a created address and 404 otherwise. *)
Module ToyStore.

Definition World : Type := list string.

Fixpoint known (address : string) (w : World) : bool :=
  match w with
  | [] => false
  | a :: rest => String.eqb a address || known address rest
  end.

Definition acknowledged : JSON := JObj [ ("acknowledged", JBool true) ].

Definition serve (w : World) (req : Request) : World * Outcome :=
  match method req, json req with
  | PUT, Some _ => (w, Script.ok acknowledged)
  | PUT, None =>
      if known (url req) w then (w, Script.already_exists)
      else (url req :: w, Script.ok acknowledged)
  | GET, _ =>
      if known (url req) w then (w, Script.ok (JObj []))
      else (w, Script.status 404)
  | _, _ => (w, Script.ok acknowledged)
  end.

Definition tick (w : World) : World * @float exact_runtime := (w, 0%Q).

Definition start : St World := mkSt Script.admin [].

End ToyStore.

(** Runs of the cleanup against scripted worlds. *)

(** A data stream with one backing index created at second 1000, cleaned
    at second 1000 with a retention of 7 days: nothing is deleted. *)
Definition young_run : Run Script.World unit :=
  clean_old_data_stream_indices Script.World Script.serve Script.tick "logs" 7
    (Script.start
       [Script.ok (JObj []);
        Script.ok (Script.descriptor ["a"]);
        Script.ok (Script.settings "a" "1000000")]
       [1000%Q]).

(** Section 8 of the specification: retention 7 days, index "a" created 8
    days ago and index "b" created 1 day ago, the clock at second
    1000000. *)
Definition scenario_run : Run Script.World unit :=
  clean_old_data_stream_indices Script.World Script.serve Script.tick "logs" 7
    (Script.start
       [Script.ok (JObj []);
        Script.ok (Script.descriptor ["a"; "b"]);
        Script.ok (Script.settings "a" "308800000");
        Script.ok (Script.settings "b" "913600000");
        Script.status 200]
       [1000000%Q; 1000000%Q; 1000000%Q]).

(** One index created at second 0, retention 1 day, the clock at second
    [now]. *)
Definition boundary_run (now : Q) : Run Script.World unit :=
  clean_old_data_stream_indices Script.World Script.serve Script.tick "logs" 1
    (Script.start
       [Script.ok (JObj []);
        Script.ok (Script.descriptor ["a"]);
        Script.ok (Script.settings "a" "0");
        Script.status 200]
       [now; now]).

(** * The command line

    The [__main__] block, from the parsed arguments on: [argparse] has
    already checked that the action is one of its three choices and that
    the retention period, when given, is an int. *)

Section Dispatcher.

Context {RT : Runtime}.
Variable W : Type.
Variable serve : W -> Request -> W * Outcome.
Variable tick : W -> W * float.

Inductive Action : Type := Create | Rollover | Clean.

(** The namespace that [parser.parse_args()] returns. *)
Record Args : Type := mkArgs {
  action : Action;
  data_stream : string;
  retention_period : option Z;
  arg_url : string;
  arg_username : string;
  arg_password : string
}.

(** How the script ends when nothing is raised: at its last line, or in
    [parser.error], which prints the usage and exits. *)
Inductive Ending : Type := Done | UsageError.

(** Lines 116-125, on the administrator object in the state. *)
Definition dispatch (args : Args) : M W Ending :=
  bind W (check_connection W serve) (fun _ =>
  match action args with
  | Create =>
      bind W (create_data_stream W serve (data_stream args)) (fun _ => ret W Done)
  | Rollover =>
      bind W (rollover_data_stream W serve (data_stream args)) (fun _ => ret W Done)
  | Clean =>
      match retention_period args with
      | None => ret W UsageError
      | Some days =>
          bind W (clean_old_data_stream_indices W serve tick (data_stream args) days)
               (fun _ => ret W Done)
      end
  end).

(** Lines 115-125: the administrator is built from the arguments. *)
Definition main (args : Args) (w : W) : Run W Ending :=
  dispatch args
    (mkSt (OpenSearch_init (arg_url args) (arg_username args) (arg_password args)) w).

(** The exit status of the process: 0 at the end of the script, 2 from
    [parser.error], 1 for an exception nobody catches. *)
Definition exit_status (r : Result Ending) : Z :=
  match r with
  | Ok Done => 0
  | Ok UsageError => 2
  | Raised _ => 1
  end.

(** ** More vocabulary *)

Definition auth_eqb (a b : HTTPBasicAuth) : bool :=
  String.eqb (auth_username a) (auth_username b)
  && String.eqb (auth_password a) (auth_password b).

(** An HTTP call made the way the administrator [this] makes them: with
    its auth object, without certificate verification, at an address
    under its endpoint. *)
Definition sent_as (this : OpenSearch) (e : Event) : bool :=
  match e with
  | EvHttp req _ =>
      auth_eqb (req_auth req) (auth this)
      && negb (verify req)
      && prefix (opensearch_url this) (url req)
  | _ => true
  end.

(** Run in a state whose administrator is [this], the call makes its HTTP
    calls as [this]. *)
Definition calls_as {A : Type} (this : OpenSearch) (m : M W A) : Prop :=
  forall st, self st = this -> forallb (sent_as this) (emitted (m st)) = true.

(** The event is no HTTP call, or one with a method of the list. *)
Definition only_methods (allowed : list Method) (e : Event) : bool :=
  match e with
  | EvHttp req _ => existsb (method_eqb (method req)) allowed
  | _ => true
  end.

(** The requests of a list of events, in order. *)
Fixpoint requests_of (evs : list Event) : list Request :=
  match evs with
  | [] => []
  | EvHttp req _ :: rest => req :: requests_of rest
  | _ :: rest => requests_of rest
  end.

(** No two entries of the dict have equal keys. *)
Fixpoint distinct_keys (d : Dates) : bool :=
  match d with
  | [] => true
  | (k, _) :: rest =>
      forallb (fun entry => negb (py_eq k (fst entry))) rest && distinct_keys rest
  end.

(** A delete request that went wrong. *)
Definition failed_delete (e : Event) : bool :=
  is_request DELETE e && negb (answered_ok e).

(** A delete request that went wrong is the last event of the list. *)
Fixpoint stops_at_failed_delete (evs : list Event) : bool :=
  match evs with
  | [] => true
  | e :: rest =>
      (negb (failed_delete e) || match rest with [] => true | _ => false end)
      && stops_at_failed_delete rest
  end.

(** The call stops at a delete request that goes wrong, and then raises. *)
Definition aborts_on_failed_delete {A : Type} (m : M W A) : Prop :=
  forall st,
    stops_at_failed_delete (emitted (m st)) = true
    /\ (forall a, result (m st) = Ok a ->
                  existsb failed_delete (emitted (m st)) = false).

End Dispatcher.


(** * Properties *)

Section Properties.

Context {RT : Runtime}.
Variable W : Type.
Variable serve : W -> Request -> W * Outcome.
Variable tick : W -> W * float.

Set Default Proof Using "Type".

Local Abbreviation check_connection := (check_connection W serve).
Local Abbreviation does_data_stream_exist := (does_data_stream_exist W serve).
Local Abbreviation create_data_stream := (create_data_stream W serve).
Local Abbreviation rollover_data_stream := (rollover_data_stream W serve).
Local Abbreviation delete_index := (delete_index W serve).
Local Abbreviation backing_indices := (backing_indices W serve).
Local Abbreviation record_creation_date := (record_creation_date W serve).
Local Abbreviation creation_dates := (creation_dates W serve).
Local Abbreviation delete_if_old := (delete_if_old W serve tick).
Local Abbreviation clean_old_data_stream_indices :=
  (clean_old_data_stream_indices W serve tick).

(** ** Runs of a sequence *)

Lemma bind_unfold {A B : Type} (m : M W A) (k : A -> M W B) st :
  bind W m k st =
    match result (m st) with
    | Ok a =>
        mkRun (final (k a (final (m st))))
              (emitted (m st) ++ emitted (k a (final (m st))))%list
              (result (k a (final (m st))))
    | Raised e => mkRun (final (m st)) (emitted (m st)) (Raised e)
    end.
Proof.
  unfold bind; destruct (m st) as [st1 first [a | e]]; cbn; [ | reflexivity ].
  destruct (k a st1); reflexivity.
Qed.

Lemma bind_result_ok {A B : Type} (m : M W A) (k : A -> M W B) st a :
  result (m st) = Ok a ->
  bind W m k st =
    mkRun (final (k a (final (m st))))
          (emitted (m st) ++ emitted (k a (final (m st))))%list
          (result (k a (final (m st)))).
Proof. intros H; rewrite bind_unfold, H; reflexivity. Qed.

Lemma bind_result_raised {A B : Type} (m : M W A) (k : A -> M W B) st e :
  result (m st) = Raised e ->
  bind W m k st = mkRun (final (m st)) (emitted (m st)) (Raised e).
Proof. intros H; rewrite bind_unfold, H; reflexivity. Qed.

(** A sequence that returns has run both of its parts to their end. *)
Lemma bind_returns {A B : Type} (m : M W A) (k : A -> M W B) st b :
  result (bind W m k st) = Ok b ->
  exists a, result (m st) = Ok a
            /\ result (k a (final (m st))) = Ok b
            /\ emitted (bind W m k st)
               = (emitted (m st) ++ emitted (k a (final (m st))))%list.
Proof.
  rewrite bind_unfold; destruct (result (m st)) as [a | e] eqn:Hm; cbn.
  - intros Hk; exists a; auto.
  - discriminate.
Qed.

(** ** The existence check *)

Lemma does_data_stream_exist_run (name : string) (st : St W) :
  does_data_stream_exist name st =
    let (w, out) := serve (world st) (data_stream_query (self st) name) in
    mkRun (mkSt (self st) w)
          [EvHttp (data_stream_query (self st) name) out]
          match out with
          | Responded r => Ok (status_code r =? 200)%Z
          | Failed => Raised RequestException
          end.
Proof.
  unfold does_data_stream_exist, bind, get_self, requests_get,
    requests_call, ret, data_stream_query; cbn.
  destruct (serve (world st) _) as [w [r | ]]; reflexivity.
Qed.

(** C4. Whatever the store answers to the existence query,
    [does_data_stream_exist] returns [True] exactly when the status of the
    answer is 200; for every other status (404 and server errors included)
    it returns [False], and it never raises on an answer. *)
Theorem does_data_stream_exist_iff_200 :
  forall (name : string) (st : St W) (w : W) (r : Response),
    serve (world st) (data_stream_query (self st) name) = (w, Responded r) ->
    let run := does_data_stream_exist name st in
    (result run = Ok true <-> status_code r = 200%Z)
    /\ (status_code r <> 200%Z -> result run = Ok false)
    /\ (forall e, result run <> Raised e).
Proof.
  intros name st w r Hserve run; subst run.
  rewrite does_data_stream_exist_run, Hserve; cbn.
  destruct (Z.eqb_spec (status_code r) 200) as [Heq | Hneq].
  - split; [ split; auto | split; [ intros Hneq; contradiction | discriminate ] ].
  - split; [ split; [ discriminate | intros Heq; contradiction ]
           | split; [ reflexivity | discriminate ] ].
Qed.

(** ** Statuses *)

Lemma is_2xx_not_error (s : Z) : is_2xx s = true -> is_error_status s = false.
Proof. unfold is_2xx, is_error_status; lia. Qed.

(** Unfolding a straight-line method down to the calls it makes. *)
Ltac unfold_method :=
  unfold bind, get_self, requests_get, requests_put, requests_post,
    requests_delete, requests_call, raise_for_status, response_json,
    logging_info, logging_error, emit, lift, ret, raise;
  cbn -[append].

(** ** The connectivity check *)

(** C7, as the code has it. [check_connection] makes exactly one call, the
    cluster-health query, and never a second one.  It raises when the call
    yields no response and when the response has a 4xx or 5xx status, and
    then logs nothing; on every other status, every 2xx among them, it
    logs success and returns.  *)
Theorem check_connection_single_attempt :
  forall (st : St W),
    let health := health_request (self st) in
    let out := snd (serve (world st) health) in
    let run := check_connection st in
    filter is_http (emitted run) = [EvHttp health out]
    /\ match out with
       | Failed =>
           result run = Raised RequestException
           /\ emitted run = [EvHttp health out]
       | Responded r =>
           (is_error_status (status_code r) = true ->
              result run = Raised (HTTPError (status_code r))
              /\ emitted run = [EvHttp health out])
           /\ (is_error_status (status_code r) = false ->
                 result run = Ok tt
                 /\ emitted run = [EvHttp health out; EvLog INFO ConnectionSuccessful])
           /\ (is_2xx (status_code r) = true -> result run = Ok tt)
       end.
Proof.
  intros st health out run; subst health out run.
  unfold check_connection, health_request; unfold_method.
  destruct (serve (world st) _) as [w [r | ]]; cbn; [ | auto ].
  assert (H2xx := is_2xx_not_error (status_code r)).
  destruct (is_error_status (status_code r)); cbn.
  - repeat split; intros; try discriminate; auto. specialize (H2xx H); discriminate.
  - repeat split; intros; try discriminate; auto.
Qed.

(** ** Soft failure on a missing data stream *)

(** C3. When the existence check answers false, [rollover_data_stream] and
    [clean_old_data_stream_indices] each log one error record and return
    without raising; the existence query is the only HTTP call of the run
    (no rollover, descriptor, settings or delete call follows). *)
Theorem missing_data_stream_soft_fails :
  forall (name : string) (d : Z) (st : St W),
    result (does_data_stream_exist name st) = Ok false ->
    exists out,
      emitted (does_data_stream_exist name st)
        = [EvHttp (data_stream_query (self st) name) out]
      /\ result (rollover_data_stream name st) = Ok tt
      /\ emitted (rollover_data_stream name st)
         = [EvHttp (data_stream_query (self st) name) out;
            EvLog ERROR (DataStreamDoesNotExist name)]
      /\ result (clean_old_data_stream_indices name d st) = Ok tt
      /\ emitted (clean_old_data_stream_indices name d st)
         = [EvHttp (data_stream_query (self st) name) out;
            EvLog ERROR (DataStreamDoesNotExist name)].
Proof.
  intros name d st Hexists.
  assert (Hrun := does_data_stream_exist_run name st).
  exists (snd (serve (world st) (data_stream_query (self st) name))).
  unfold rollover_data_stream, clean_old_data_stream_indices.
  rewrite !(bind_result_ok _ _ _ _ Hexists).
  rewrite Hrun.
  destruct (serve (world st) _) as [w out]; cbn; auto.
Qed.

(** ** Creation *)

(** C5, as the code has it. [create_data_stream] starts with the template
    upsert: a PUT to [<url>/_index_template/<name>-template] whose body has
    [index_patterns] = name, an empty [data_stream] object and [priority]
    = 100.  When that call yields no response, or a response with a 4xx or
    5xx status, the method raises and the upsert stays the only event of
    the run: no data-stream creation request is made. *)
Theorem create_data_stream_upserts_template_first :
  forall (name : string) (st : St W),
    let upsert :=
      {| method := PUT;
         url := opensearch_url (self st) ++ "/_index_template/" ++ name ++ "-template";
         json := Some (JObj [ ("index_patterns", JStr name);
                              ("data_stream", JObj []);
                              ("priority", JInt 100) ]);
         req_auth := auth (self st);
         verify := false |} in
    let out := snd (serve (world st) upsert) in
    let run := create_data_stream name st in
    (exists rest, emitted run = EvHttp upsert out :: rest)
    /\ match out with
       | Failed =>
           result run = Raised RequestException
           /\ emitted run = [EvHttp upsert out]
       | Responded r =>
           is_error_status (status_code r) = true ->
           result run = Raised (HTTPError (status_code r))
           /\ emitted run = [EvHttp upsert out]
       end.
Proof.
  intros name st upsert out run; subst upsert out run.
  unfold create_data_stream, index_template_body.
  rewrite bind_unfold; cbn [get_self result final emitted app].
  rewrite bind_unfold; unfold requests_put, requests_call.
  destruct (serve (world st) _) as [w [r | ]]; cbn [result final emitted app snd].
  - split; [ eexists; reflexivity | intros Herr ].
    rewrite bind_unfold; unfold raise_for_status; rewrite Herr.
    cbn; auto.
  - split; [ eexists; reflexivity | auto ].
Qed.

Ltac settle :=
  repeat split; intros; try discriminate; try tauto; eauto;
  try solve [ exfalso; intuition discriminate ].

(** What [create_data_stream] does once the template upsert has gone
    through, by the answer to the creation request. *)
Lemma create_data_stream_after_upsert (name : string) (st : St W) w1 r1 w2 r2 :
  serve (world st) (template_upsert (self st) name) = (w1, Responded r1) ->
  is_error_status (status_code r1) = false ->
  serve w1 (data_stream_creation (self st) name) = (w2, Responded r2) ->
  let sent :=
    [EvHttp (template_upsert (self st) name) (Responded r1);
     EvLog INFO (CreatedIndexTemplate (name ++ "-template"));
     EvHttp (data_stream_creation (self st) name) (Responded r2)] in
  let run := create_data_stream name st in
  final run = mkSt (self st) w2
  /\ ((status_code r2 = 400%Z /\ reports_already_exists r2 = true) ->
        result run = Ok tt
        /\ emitted run = (sent ++ [EvLog INFO (DataStreamAlreadyExists name)])%list)
  /\ (is_error_status (status_code r2) = true ->
        ~ (status_code r2 = 400%Z /\ reports_already_exists r2 = true) ->
        (exists e, result run = Raised e) /\ emitted run = sent)
  /\ (is_error_status (status_code r2) = false ->
        result run = Ok tt
        /\ emitted run = (sent ++ [EvLog INFO (CreatedDataStream name)])%list).
Proof.
  clear tick.
  intros Hupsert Hok Hcreate sent run; subst sent run.
  unfold create_data_stream, template_upsert, data_stream_creation,
    reports_already_exists in *.
  unfold_method.
  rewrite Hupsert; cbn -[append]. rewrite Hok; cbn -[append]. rewrite Hcreate; cbn -[append].
  destruct (Z.eqb_spec (status_code r2) 400) as [H400 | Hnot400].
  - rewrite H400; cbn -[append].
    destruct (body r2) as [decoded | ]; cbn -[append];
      [ | settle ].
    destruct (py_getitem decoded (JStr "error")) as [err | e1]; cbn -[append];
      [ | settle ].
    destruct (py_getitem err (JStr "type")) as [error | e2]; cbn -[append];
      [ | settle ].
    destruct (py_eq error (JStr "resource_already_exists_exception")); cbn -[append];
      settle.
  - destruct (is_error_status (status_code r2)); cbn -[append];
      settle.
Qed.

(** C2, as the code has it. Once the template upsert has gone through: a
    creation answer with status 400 whose error type is
    "resource_already_exists_exception" makes [create_data_stream] log
    "already exists" and return, that log record being the last event of
    the run (no further request); any other answer with a 4xx or 5xx
    status makes it raise, the creation request being the last event. *)
Theorem create_data_stream_already_exists_is_success :
  forall (name : string) (st : St W) (w1 w2 : W) (r1 r2 : Response),
    serve (world st) (template_upsert (self st) name) = (w1, Responded r1) ->
    is_error_status (status_code r1) = false ->
    serve w1 (data_stream_creation (self st) name) = (w2, Responded r2) ->
    let sent :=
      [EvHttp (template_upsert (self st) name) (Responded r1);
       EvLog INFO (CreatedIndexTemplate (name ++ "-template"));
       EvHttp (data_stream_creation (self st) name) (Responded r2)] in
    let run := create_data_stream name st in
    ((status_code r2 = 400%Z /\ reports_already_exists r2 = true) ->
       result run = Ok tt
       /\ emitted run = (sent ++ [EvLog INFO (DataStreamAlreadyExists name)])%list)
    /\ (is_error_status (status_code r2) = true ->
          ~ (status_code r2 = 400%Z /\ reports_already_exists r2 = true) ->
          (exists e, result run = Raised e) /\ emitted run = sent).
Proof.
  intros name st w1 w2 r1 r2 Hupsert Hok Hcreate sent run.
  destruct (create_data_stream_after_upsert name st w1 r1 w2 r2 Hupsert Hok Hcreate)
    as (_ & Hexists & Herror & _).
  split; assumption.
Qed.

(** C6. Against a store that keeps its side of the creation contract,
    two calls of [create_data_stream] in a row both return: the first has
    its upsert and its creation request answered 2xx; the second, started
    in the state the first one left, has its upsert answered 2xx again and
    its creation request answered 400 "resource_already_exists_exception",
    which it logs as "already exists". *)
Theorem create_data_stream_twice_succeeds :
  forall (name : string) (st : St W) (w1 w2 w3 w4 : W) (r1 r2 r3 r4 : Response),
    serve (world st) (template_upsert (self st) name) = (w1, Responded r1) ->
    is_2xx (status_code r1) = true ->
    serve w1 (data_stream_creation (self st) name) = (w2, Responded r2) ->
    is_2xx (status_code r2) = true ->
    serve w2 (template_upsert (self st) name) = (w3, Responded r3) ->
    is_2xx (status_code r3) = true ->
    serve w3 (data_stream_creation (self st) name) = (w4, Responded r4) ->
    status_code r4 = 400%Z ->
    reports_already_exists r4 = true ->
    let first := create_data_stream name st in
    let second := create_data_stream name (final first) in
    result first = Ok tt
    /\ result second = Ok tt
    /\ (exists before,
          emitted second = (before ++ [EvLog INFO (DataStreamAlreadyExists name)])%list).
Proof.
  intros name st w1 w2 w3 w4 r1 r2 r3 r4 H1 S1 H2 S2 H3 S3 H4 S4 Hexists first second.
  apply is_2xx_not_error in S1, S2, S3.
  destruct (create_data_stream_after_upsert name st w1 r1 w2 r2 H1 S1 H2)
    as (Hfinal & _ & _ & Hcreated).
  fold first in Hfinal, Hcreated.
  assert (Hself : self (final first) = self st) by (rewrite Hfinal; reflexivity).
  assert (Hworld : world (final first) = w2) by (rewrite Hfinal; reflexivity).
  rewrite <- Hself, <- Hworld in H3.
  rewrite <- Hself in H4.
  destruct (create_data_stream_after_upsert name (final first) w3 r3 w4 r4 H3 S3 H4)
    as (_ & Hagain & _ & _).
  fold second in Hagain.
  destruct (Hagain (conj S4 Hexists)) as [Hres Hev].
  split; [ apply Hcreated; assumption | ].
  split; [ assumption | ].
  eexists; exact Hev.
Qed.

(** ** The connection parameters *)

Lemma keeps_self_ret {A : Type} (a : A) : keeps_self W (ret W a).
Proof. intros st; reflexivity. Qed.

Lemma keeps_self_raise {A : Type} (e : Exn) : keeps_self W (raise W (A := A) e).
Proof. intros st; reflexivity. Qed.

Lemma keeps_self_lift {A : Type} (r : Result A) : keeps_self W (lift W r).
Proof. intros st; reflexivity. Qed.

Lemma keeps_self_get_self : keeps_self W (get_self W).
Proof. intros st; reflexivity. Qed.

Lemma keeps_self_emit (e : Event) : keeps_self W (emit W e).
Proof. intros st; reflexivity. Qed.

Lemma keeps_self_time_time : keeps_self W (time_time W tick).
Proof. intros st; unfold time_time; destruct (tick (world st)); reflexivity. Qed.

Lemma keeps_self_requests_call (req : Request) : keeps_self W (requests_call W serve req).
Proof. intros st; unfold requests_call; destruct (serve (world st) req); reflexivity. Qed.

Lemma keeps_self_bind {A B : Type} (m : M W A) (k : A -> M W B) :
  keeps_self W m -> (forall a, keeps_self W (k a)) -> keeps_self W (bind W m k).
Proof.
  intros Hm Hk st; rewrite bind_unfold.
  destruct (result (m st)) as [a | e]; cbn.
  - rewrite Hk; apply Hm.
  - apply Hm.
Qed.

Ltac keeps_self_step :=
  first
    [ assumption
    | apply keeps_self_bind; [ | intros ]
    | apply keeps_self_ret
    | apply keeps_self_raise
    | apply keeps_self_lift
    | apply keeps_self_get_self
    | apply keeps_self_emit
    | apply keeps_self_time_time
    | apply keeps_self_requests_call
    | match goal with
      | |- keeps_self _ (if ?b then _ else _) => destruct b
      | |- keeps_self _ (match ?x with _ => _ end) => destruct x
      end ].

Ltac keeps_self_auto :=
  unfold requests_get, requests_put, requests_post, requests_delete,
    raise_for_status, response_json, logging_info, logging_error;
  repeat keeps_self_step.

Lemma keeps_self_does_data_stream_exist name :
  keeps_self W (does_data_stream_exist name).
Proof. unfold does_data_stream_exist; keeps_self_auto. Qed.

Lemma keeps_self_delete_index index : keeps_self W (delete_index index).
Proof. unfold delete_index; keeps_self_auto. Qed.

Lemma keeps_self_backing_indices name : keeps_self W (backing_indices name).
Proof. unfold backing_indices; keeps_self_auto. Qed.

Lemma keeps_self_record_creation_date index dates :
  keeps_self W (record_creation_date index dates).
Proof. unfold record_creation_date; keeps_self_auto. Qed.

Lemma keeps_self_creation_dates indices :
  forall dates, keeps_self W (creation_dates indices dates).
Proof.
  induction indices as [ | index rest IH]; intros dates; cbn.
  - apply keeps_self_ret.
  - apply keeps_self_bind; [ apply keeps_self_record_creation_date | intros; apply IH ].
Qed.

Lemma keeps_self_delete_if_old d entry : keeps_self W (delete_if_old d entry).
Proof.
  destruct entry as [index creation_date]; unfold delete_if_old.
  assert (Hdel := keeps_self_delete_index index).
  keeps_self_auto.
Qed.

Lemma keeps_self_for_each {A : Type} (body : A -> M W unit) xs :
  (forall x, keeps_self W (body x)) -> keeps_self W (for_each W body xs).
Proof.
  intros Hbody; induction xs as [ | x rest IH]; cbn.
  - apply keeps_self_ret.
  - apply keeps_self_bind; [ apply Hbody | intros; apply IH ].
Qed.

(** C9. The endpoint, the user name, the password and the auth object are
    what the constructor made of its arguments, and every method hands the
    administrator object back unchanged, whether it returns, stops at a
    missing data stream or raises. *)
Theorem connection_parameters_unchanged :
  (forall endpoint user secret,
      let this := OpenSearch_init endpoint user secret in
      opensearch_url this = endpoint
      /\ username this = user
      /\ password this = secret
      /\ auth this = mkAuth user secret)
  /\ (forall st, self (final (check_connection st)) = self st)
  /\ (forall name st, self (final (does_data_stream_exist name st)) = self st)
  /\ (forall name st, self (final (create_data_stream name st)) = self st)
  /\ (forall name st, self (final (rollover_data_stream name st)) = self st)
  /\ (forall index st, self (final (delete_index index st)) = self st)
  /\ (forall name d st,
        self (final (clean_old_data_stream_indices name d st)) = self st).
Proof.
  split; [ intros; cbn; auto | ].
  split; [ intros st; revert st; fold (keeps_self W check_connection);
           unfold check_connection; keeps_self_auto | ].
  split; [ intros name; apply keeps_self_does_data_stream_exist | ].
  split; [ intros name st; revert st;
           fold (keeps_self W (create_data_stream name));
           unfold create_data_stream; keeps_self_auto | ].
  split; [ intros name st; revert st;
           fold (keeps_self W (rollover_data_stream name));
           unfold rollover_data_stream;
           assert (Hex := keeps_self_does_data_stream_exist name);
           keeps_self_auto | ].
  split; [ intros index; apply keeps_self_delete_index | ].
  intros name d st; revert st.
  fold (keeps_self W (clean_old_data_stream_indices name d)).
  unfold clean_old_data_stream_indices.
  apply keeps_self_bind; [ apply keeps_self_does_data_stream_exist | intros present ].
  destruct (negb present); [ apply keeps_self_emit | ].
  apply keeps_self_bind; [ apply keeps_self_backing_indices | intros indices ].
  apply keeps_self_bind; [ apply keeps_self_creation_dates | intros dates ].
  apply keeps_self_bind;
    [ apply keeps_self_for_each; intros; apply keeps_self_delete_if_old | intros ].
  apply keeps_self_emit.
Qed.

(** ** What the phases of the cleanup send *)

Lemma all_events_ret {A : Type} test (a : A) : all_events W test (ret W a).
Proof. intros st; reflexivity. Qed.

Lemma all_events_raise {A : Type} test (e : Exn) :
  all_events W test (raise W (A := A) e).
Proof. intros st; reflexivity. Qed.

Lemma all_events_lift {A : Type} test (r : Result A) : all_events W test (lift W r).
Proof. intros st; reflexivity. Qed.

Lemma all_events_get_self test : all_events W test (get_self W).
Proof. intros st; reflexivity. Qed.

Lemma all_events_emit test (e : Event) :
  test e = true -> all_events W test (emit W e).
Proof. intros He st; cbn; rewrite He; reflexivity. Qed.

Lemma all_events_time_time test :
  (forall t, test (EvClock t) = true) -> all_events W test (time_time W tick).
Proof.
  intros Ht st; unfold time_time; destruct (tick (world st)) as [w t]; cbn.
  rewrite Ht; reflexivity.
Qed.

Lemma all_events_requests_call test (req : Request) :
  (forall out, test (EvHttp req out) = true) ->
  all_events W test (requests_call W serve req).
Proof.
  intros Hreq st; unfold requests_call; destruct (serve (world st) req) as [w out]; cbn.
  rewrite Hreq; reflexivity.
Qed.

Lemma all_events_bind {A B : Type} test (m : M W A) (k : A -> M W B) :
  all_events W test m -> (forall a, all_events W test (k a)) ->
  all_events W test (bind W m k).
Proof.
  intros Hm Hk st; rewrite bind_unfold.
  destruct (result (m st)) as [a | e]; cbn.
  - rewrite forallb_app, Hm, Hk; reflexivity.
  - apply Hm.
Qed.

Ltac all_events_step :=
  first
    [ assumption
    | apply all_events_bind; [ | intros ]
    | apply all_events_ret
    | apply all_events_raise
    | apply all_events_lift
    | apply all_events_get_self
    | apply all_events_emit; reflexivity
    | apply all_events_time_time; reflexivity
    | apply all_events_requests_call; reflexivity
    | match goal with
      | |- all_events _ _ (if ?b then _ else _) => destruct b
      | |- all_events _ _ (match ?x with _ => _ end) => destruct x
      end ].

Ltac all_events_auto :=
  unfold requests_get, requests_put, requests_post, requests_delete,
    raise_for_status, response_json, logging_info, logging_error;
  repeat all_events_step.

(** The descriptor query and the settings queries are GETs. *)
Lemma backing_indices_no_delete name :
  all_events W (not_request DELETE) (backing_indices name).
Proof. unfold backing_indices; all_events_auto. Qed.

Lemma record_creation_date_no_delete index dates :
  all_events W (not_request DELETE) (record_creation_date index dates).
Proof. unfold record_creation_date; all_events_auto. Qed.

Lemma creation_dates_no_delete indices :
  forall dates, all_events W (not_request DELETE) (creation_dates indices dates).
Proof.
  induction indices as [ | index rest IH]; intros dates; cbn.
  - apply all_events_ret.
  - apply all_events_bind; [ apply record_creation_date_no_delete | intros; apply IH ].
Qed.



Lemma for_each_all_events {A : Type} test (body : A -> M W unit) xs :
  (forall x, all_events W test (body x)) -> all_events W test (for_each W body xs).
Proof.
  intros Hbody; induction xs as [ | x rest IH]; cbn.
  - apply all_events_ret.
  - apply all_events_bind; [ apply Hbody | intros; apply IH ].
Qed.

(** *** Queries that were answered *)









(** *** The cleanup, phase by phase *)

(** The run of the cleanup once the existence check has answered true. *)
Lemma clean_run_when_present name d st :
  result (does_data_stream_exist name st) = Ok true ->
  let checked := does_data_stream_exist name st in
  let listed := backing_indices name (final checked) in
  clean_old_data_stream_indices name d st =
    match result listed with
    | Raised e =>
        mkRun (final listed) (emitted checked ++ emitted listed)%list (Raised e)
    | Ok indices =>
        let dated := creation_dates indices [] (final listed) in
        match result dated with
        | Raised e =>
            mkRun (final dated)
                  (emitted checked ++ emitted listed ++ emitted dated)%list (Raised e)
        | Ok dates =>
            let swept := for_each W (delete_if_old d) dates (final dated) in
            match result swept with
            | Raised e =>
                mkRun (final swept)
                      (emitted checked ++ emitted listed ++ emitted dated
                         ++ emitted swept)%list
                      (Raised e)
            | Ok _ =>
                mkRun (final swept)
                      (emitted checked ++ emitted listed ++ emitted dated
                         ++ emitted swept
                         ++ [EvLog INFO (FinishedCleaning name)])%list
                      (Ok tt)
            end
        end
    end.
Proof.
  intros Hpresent checked listed; subst checked listed.
  unfold clean_old_data_stream_indices.
  rewrite (bind_result_ok _ _ _ _ Hpresent); cbn [negb].
  rewrite bind_unfold.
  destruct (result (backing_indices name _)) as [indices | e];
    cbn [final emitted result]; [ | reflexivity ].
  rewrite bind_unfold.
  destruct (result (creation_dates indices [] _)) as [dates | e];
    cbn [final emitted result]; [ | reflexivity ].
  rewrite bind_unfold.
  destruct (result (for_each W _ dates _)) as [u | e];
    cbn [final emitted result]; reflexivity.
Qed.

Lemma does_data_stream_exist_emits name st :
  exists out,
    emitted (does_data_stream_exist name st)
      = [EvHttp (data_stream_query (self st) name) out]
    /\ (result (does_data_stream_exist name st) = Ok true ->
        exists r, out = Responded r /\ status_code r = 200%Z).
Proof.
  rewrite does_data_stream_exist_run.
  destruct (serve (world st) _) as [w [r | ]]; cbn.
  - eexists; split; [ reflexivity | ].
    intros Htrue; exists r; split; [ reflexivity | ].
    injection Htrue as Htrue; apply Z.eqb_eq; assumption.
  - eexists; split; [ reflexivity | discriminate ].
Qed.







(** ** The retention test *)

(** Once the second loop has got through the entries before it, what it
    does for an entry is what the loop body does in the state reached. *)
Lemma for_each_reaches {A : Type} (body : A -> M W unit) (before : list A) x after :
  forall st0,
    result (for_each W body before st0) = Ok tt ->
    exists tail,
      emitted (for_each W body (before ++ x :: after) st0)
        = (emitted (for_each W body before st0)
             ++ emitted (body x (final (for_each W body before st0)))
             ++ tail)%list.
Proof.
  induction before as [ | b rest IH]; intros st0 Hbefore.
  - cbn [app for_each ret emitted final].
    rewrite bind_unfold.
    destruct (result (body x st0)); cbn [emitted].
    + eexists; reflexivity.
    + exists []; rewrite app_nil_r; reflexivity.
  - cbn [app for_each] in *.
    destruct (bind_returns _ _ _ _ Hbefore) as (u & Hb & Hrest & Hev).
    rewrite Hev.
    rewrite !(bind_result_ok _ _ _ _ Hb); cbn [emitted final].
    destruct (IH _ Hrest) as (tail & Htail).
    exists tail; rewrite Htail, <- !app_assoc; reflexivity.
Qed.

(** The first loop, for one index: what it stores is the creation date
    the store reported for that index, read as an int and divided by
    1000. *)
Lemma record_creation_date_returns index dates st dates' :
  result (record_creation_date index dates st) = Ok dates' ->
  exists r cd millis seconds,
    emitted (record_creation_date index dates st)
      = [EvHttp (index_query (self st) index) (Responded r)]
    /\ creation_date_of r index = Ok cd
    /\ py_int cd = Ok millis
    /\ truediv millis 1000 = Ok seconds
    /\ dates' = dict_assign index seconds dates.
Proof.
  unfold record_creation_date, creation_date_of, index_query, dict_setitem.
  unfold bind, get_self, requests_get, requests_call, raise_for_status,
    response_json, lift, ret, raise.
  cbn -[append py_getitem py_int truediv dict_assign hashable].
  destruct (serve (world st) _) as [w [r | ]];
    cbn -[append py_getitem py_int truediv dict_assign hashable]; [ | discriminate ].
  destruct (is_error_status (status_code r));
    cbn -[append py_getitem py_int truediv dict_assign hashable]; [ discriminate | ].
  destruct (body r) as [decoded | ] eqn:Hbody;
    cbn -[append py_getitem py_int truediv dict_assign hashable]; [ | discriminate ].
  destruct (py_getitem decoded index) as [entry | ] eqn:Hentry;
    cbn -[append py_getitem py_int truediv dict_assign hashable]; [ | discriminate ].
  destruct (py_getitem entry (JStr "settings")) as [settings | ] eqn:Hsettings;
    cbn -[append py_getitem py_int truediv dict_assign hashable]; [ | discriminate ].
  destruct (py_getitem settings (JStr "index")) as [index_settings | ] eqn:Hindex;
    cbn -[append py_getitem py_int truediv dict_assign hashable]; [ | discriminate ].
  destruct (py_getitem index_settings (JStr "creation_date")) as [cd | ] eqn:Hcd;
    cbn -[append py_getitem py_int truediv dict_assign hashable]; [ | discriminate ].
  destruct (py_int cd) as [millis | ] eqn:Hmillis;
    cbn -[append py_getitem py_int truediv dict_assign hashable]; [ | discriminate ].
  destruct (truediv millis 1000) as [seconds | ] eqn:Hseconds;
    cbn -[append py_getitem py_int truediv dict_assign hashable]; [ | discriminate ].
  destruct (hashable index);
    cbn -[append py_getitem py_int truediv dict_assign hashable]; [ | discriminate ].
  intros Hdates; injection Hdates as <-.
  exists r, cd, millis, seconds.
  rewrite Hbody, Hentry, Hsettings, Hindex.
  repeat split; assumption.
Qed.

(** The second loop, for one entry, by the outcome of the test. *)
Lemma delete_if_old_run d index created st :
  let now := snd (tick (world st)) in
  let age := float_sub now created in
  let run := delete_if_old d (index, created) st in
  if float_gt_int age (d * 86400)
  then exists again out rest,
         emitted run
           = EvClock now :: EvClock again
               :: EvLog INFO (DeletingIndex index (float_sub again created))
               :: EvHttp (index_deletion (self st) index) out :: rest
         /\ forallb (not_request DELETE) rest = true
  else emitted run = [EvClock now].
Proof.
  intros now age run; subst now age run.
  unfold delete_if_old, delete_index, index_deletion.
  replace (d * 24 * 60 * 60)%Z with (d * 86400)%Z by lia.
  unfold bind, get_self, time_time, requests_delete, requests_call,
    raise_for_status, logging_info, emit, ret, raise.
  destruct (tick (world st)) as [w now]; cbn -[append].
  destruct (float_gt_int (float_sub now created) (d * 86400)); cbn -[append];
    [ | reflexivity ].
  destruct (tick w) as [w1 again]; cbn -[append].
  destruct (serve w1 _) as [w2 [r | ]]; cbn -[append].
  - destruct (is_error_status (status_code r)); cbn -[append];
      do 3 eexists; split; reflexivity.
  - do 3 eexists; split; reflexivity.
Qed.

(** An entry of the dict after an assignment was there before, or holds
    the value just assigned under a key equal to the one assigned to. *)
Lemma dict_assign_entry key s (d : Dates) k v :
  In (k, v) (dict_assign key s d) ->
  In (k, v) d \/ (v = s /\ (k = key \/ py_eq k key = true)).
Proof.
  induction d as [ | [k0 old] rest IH]; cbn.
  - intros [Heq | []]; injection Heq as <- <-; auto.
  - destruct (py_eq k0 key) eqn:Hkey; cbn.
    + intros [Heq | Hin]; [ injection Heq as <- <-; auto | auto ].
    + intros [Heq | Hin]; [ auto | ].
      destruct (IH Hin) as [Hold | Hnew]; auto.
Qed.

(** Where the creation times of the dict come from: every entry that the
    first loop adds holds the creation date that a settings query of this
    loop returned for an index equal to its key, read as an int and
    divided by 1000. *)
Lemma creation_dates_provenance indices :
  forall dates st dates',
    result (creation_dates indices dates st) = Ok dates' ->
    forall k v,
      In (k, v) dates' ->
      In (k, v) dates
      \/ exists index r cd millis,
           In index indices
           /\ In (EvHttp (index_query (self st) index) (Responded r))
                 (emitted (creation_dates indices dates st))
           /\ (k = index \/ py_eq k index = true)
           /\ creation_date_of r index = Ok cd
           /\ py_int cd = Ok millis
           /\ truediv millis 1000 = Ok v.
Proof.
  induction indices as [ | index rest IH]; intros dates st dates'.
  - cbn. intros Hret k v Hin; injection Hret as <-; auto.
  - change (creation_dates (index :: rest) dates st)
      with (bind W (record_creation_date index dates)
                   (fun dates1 => creation_dates rest dates1) st).
    intros Hret k v Hin.
    destruct (bind_returns _ _ _ _ Hret) as (dates1 & Hfirst & Hrest & Hev).
    destruct (record_creation_date_returns _ _ _ _ Hfirst)
      as (r & cd & millis & seconds & Hsent & Hcd & Hmillis & Hseconds & Hdates1).
    assert (Hself := keeps_self_record_creation_date index dates st).
    rewrite Hev.
    destruct (IH _ _ _ Hrest k v Hin)
      as [Hold | (index' & r' & cd' & millis' & Hin' & Hsent' & Hk & Hcd' & Hm' & Hs')].
    + rewrite Hdates1 in Hold.
      destruct (dict_assign_entry _ _ _ _ _ Hold) as [Hbefore | [-> Hk]];
        [ left; exact Hbefore | right ].
      exists index, r, cd, millis.
      split; [ left; reflexivity | ].
      split; [ apply in_or_app; left; rewrite Hsent; left; reflexivity | ].
      repeat split; assumption.
    + right; exists index', r', cd', millis'.
      split; [ right; exact Hin' | ].
      split; [ apply in_or_app; right; rewrite <- Hself; exact Hsent' | ].
      repeat split; assumption.
Qed.

(** Every delete request of the second loop belongs to an entry that the
    loop reached, and whose age was above the threshold at its test. *)
Lemma sweep_delete_position d dates :
  forall st req out,
    In (EvHttp req out) (emitted (for_each W (delete_if_old d) dates st)) ->
    method req = DELETE ->
    exists before index created after,
      dates = (before ++ (index, created) :: after)%list
      /\ result (for_each W (delete_if_old d) before st) = Ok tt
      /\ req = index_deletion (self st) index
      /\ float_gt_int
           (float_sub
              (snd (tick (world (final (for_each W (delete_if_old d) before st)))))
              created)
           (d * 86400) = true.
Proof.
  induction dates as [ | [k v] rest IH]; intros st req out Hin Hmethod.
  - destruct Hin.
  - change (for_each W (delete_if_old d) ((k, v) :: rest) st)
      with (bind W (delete_if_old d (k, v))
                   (fun _ => for_each W (delete_if_old d) rest) st) in Hin.
    rewrite bind_unfold in Hin.
    assert (Hself := keeps_self_delete_if_old d (k, v) st).
    assert (Hbody : In (EvHttp req out) (emitted (delete_if_old d (k, v) st)) ->
                    req = index_deletion (self st) k
                    /\ float_gt_int (float_sub (snd (tick (world st))) v) (d * 86400)
                       = true).
    { assert (Hrun := delete_if_old_run d k v st); cbn zeta in Hrun.
      destruct (float_gt_int _ _).
      - destruct Hrun as (again & out0 & tail & -> & Htail).
        intros [Heq | [Heq | [Heq | [Heq | Hin_tail]]]]; try discriminate.
        + injection Heq as <- _; split; reflexivity.
        + exfalso.
          assert (H := proj1 (forallb_forall _ _) Htail _ Hin_tail).
          unfold not_request in H; cbn in H; rewrite Hmethod in H; discriminate.
      - rewrite Hrun; intros [Heq | []]; discriminate. }
    assert (Hhere :
      In (EvHttp req out) (emitted (delete_if_old d (k, v) st)) ->
      exists before index created after,
        (k, v) :: rest = (before ++ (index, created) :: after)%list
        /\ result (for_each W (delete_if_old d) before st) = Ok tt
        /\ req = index_deletion (self st) index
        /\ float_gt_int
             (float_sub
                (snd (tick (world (final (for_each W (delete_if_old d) before st)))))
                created)
             (d * 86400) = true).
    { intros Hin_body; destruct (Hbody Hin_body) as [Hreq Hgt].
      exists [], k, v, rest; repeat split; assumption. }
    destruct (result (delete_if_old d (k, v) st)) as [u | e] eqn:Hstep;
      cbn [emitted] in Hin; [ | exact (Hhere Hin) ].
    apply in_app_or in Hin; destruct Hin as [Hin | Hin]; [ exact (Hhere Hin) | ].
    destruct (IH _ _ _ Hin Hmethod)
      as (before & index & created & after & Hsplit & Hres & Hreq & Hgt).
    exists ((k, v) :: before), index, created, after.
    change (for_each W (delete_if_old d) ((k, v) :: before) st)
      with (bind W (delete_if_old d (k, v))
                   (fun _ => for_each W (delete_if_old d) before) st).
    rewrite (bind_result_ok _ _ _ _ Hstep); cbn [final result].
    split; [ rewrite Hsplit; reflexivity | ].
    split; [ exact Hres | ].
    split; [ rewrite <- Hself; exact Hreq | exact Hgt ].
Qed.

(** The events of a run of the cleanup whose first loop has returned:
    those of the existence check, of the descriptor query, of the first
    loop and of the second loop over the dict that the first loop
    returned, with the completion message when the second loop returns. *)
Lemma clean_run_when_dated name d st indices dates :
  result (does_data_stream_exist name st) = Ok true ->
  let checked := does_data_stream_exist name st in
  let listed := backing_indices name (final checked) in
  let dated := creation_dates indices [] (final listed) in
  let swept := for_each W (delete_if_old d) dates (final dated) in
  result listed = Ok indices ->
  result dated = Ok dates ->
  self (final dated) = self st
  /\ exists ending,
       emitted (clean_old_data_stream_indices name d st)
         = (emitted checked ++ emitted listed ++ emitted dated
              ++ emitted swept ++ ending)%list
       /\ forallb (not_request DELETE) ending = true.
Proof.
  intros Hpresent checked listed dated swept Hlisted Hdated.
  split.
  - unfold dated, listed, checked.
    rewrite keeps_self_creation_dates, keeps_self_backing_indices.
    apply keeps_self_does_data_stream_exist.
  - rewrite (clean_run_when_present name d st Hpresent); cbn zeta.
    fold checked; fold listed; rewrite Hlisted.
    fold dated; rewrite Hdated.
    fold swept.
    destruct (result swept); cbn [emitted].
    + exists [EvLog INFO (FinishedCleaning name)]; split; reflexivity.
    + exists []; rewrite app_nil_r; split; reflexivity.
Qed.

(** C1. In a run of [clean_old_data_stream_indices] with retention period
    [d] whose first loop has returned the dict [dates]:
    - for every entry (index, creation time) that the second loop
      reaches, the run contains what the loop body does for it, and that
      holds a delete request, addressed at this index, exactly when the
      age (the clock reading at the test minus the creation time) is
      strictly greater than [d * 86400]; at an age equal to the threshold
      it holds none;
    - every delete request of the run belongs to such an entry, reached
      with an age above the threshold;
    - the creation time of every entry is the creation date that the
      store reported to a settings query of this run for that index, in
      milliseconds, divided by 1000. *)
Theorem clean_deletes_iff_older_than_retention :
  forall (name : string) (d : Z) (st : St W) (indices : list JSON) (dates : Dates),
    let checked := does_data_stream_exist name st in
    let listed := backing_indices name (final checked) in
    let dated := creation_dates indices [] (final listed) in
    let run := clean_old_data_stream_indices name d st in
    result checked = Ok true ->
    result listed = Ok indices ->
    result dated = Ok dates ->
    (forall before index created after,
        dates = (before ++ (index, created) :: after)%list ->
        let reached := for_each W (delete_if_old d) before (final dated) in
        result reached = Ok tt ->
        let now := snd (tick (world (final reached))) in
        let age := float_sub now created in
        let step := delete_if_old d (index, created) (final reached) in
        (exists tail,
            emitted run
              = (emitted checked ++ emitted listed ++ emitted dated
                   ++ emitted reached ++ emitted step ++ tail)%list)
        /\ (existsb (is_request DELETE) (emitted step) = true
              <-> float_gt_int age (d * 86400) = true)
        /\ (float_gt_int age (d * 86400) = true ->
              exists out,
                In (EvHttp (index_deletion (self st) index) out) (emitted step)
                /\ In (EvHttp (index_deletion (self st) index) out) (emitted run))
        /\ (float_eq_int age (d * 86400) = true ->
              existsb (is_request DELETE) (emitted step) = false))
    /\ (forall req out,
          In (EvHttp req out) (emitted run) ->
          method req = DELETE ->
          exists before index created after,
            dates = (before ++ (index, created) :: after)%list
            /\ result (for_each W (delete_if_old d) before (final dated)) = Ok tt
            /\ req = index_deletion (self st) index
            /\ float_gt_int
                 (float_sub
                    (snd (tick (world (final (for_each W (delete_if_old d) before
                                                (final dated))))))
                    created)
                 (d * 86400) = true)
    /\ (forall index created,
          In (index, created) dates ->
          exists listed_index r cd millis,
            In listed_index indices
            /\ In (EvHttp (index_query (self st) listed_index) (Responded r))
                  (emitted dated)
            /\ (index = listed_index \/ py_eq index listed_index = true)
            /\ creation_date_of r listed_index = Ok cd
            /\ py_int cd = Ok millis
            /\ truediv millis 1000 = Ok created).
Proof.
  intros name d st indices dates checked listed dated run Hpresent Hlisted Hdated.
  destruct (clean_run_when_dated name d st indices dates Hpresent Hlisted Hdated)
    as (Hself & ending & Hrun & Hending).
  fold checked listed dated run in Hself, Hrun.
  assert (Hself_listed : self (final listed) = self st).
  { unfold listed, checked.
    rewrite keeps_self_backing_indices; apply keeps_self_does_data_stream_exist. }
  split; [ | split ].
  - (* the entries that the second loop reaches *)
    intros before index created after Hsplit reached Hreached now age step.
    assert (Hself_reached : self (final reached) = self st).
    { unfold reached.
      rewrite (keeps_self_for_each (delete_if_old d) before
                 (keeps_self_delete_if_old d)).
      exact Hself. }
    destruct (for_each_reaches (delete_if_old d) before (index, created) after
                (final dated) Hreached) as (tail & Htail).
    fold reached step in Htail.
    assert (Hevents :
      emitted run
        = (emitted checked ++ emitted listed ++ emitted dated
             ++ emitted reached ++ emitted step ++ tail ++ ending)%list).
    { rewrite Hrun, Hsplit, Htail, <- !app_assoc; reflexivity. }
    split; [ exists (tail ++ ending)%list; exact Hevents | ].
    assert (Hstep := delete_if_old_run d index created (final reached)).
    cbn zeta in Hstep; fold now age step in Hstep.
    assert (Hexcl := float_gt_not_eq age (d * 86400)).
    destruct (float_gt_int age (d * 86400)) eqn:Hgt.
    + destruct Hstep as (again & out & others & Hev & Hothers).
      rewrite Hself_reached in Hev.
      split; [ rewrite Hev; cbn; split; reflexivity | ].
      split.
      * intros _; exists out.
        assert (Hin : In (EvHttp (index_deletion (self st) index) out) (emitted step))
          by (rewrite Hev; cbn; auto).
        split; [ exact Hin | ].
        rewrite Hevents.
        do 4 (apply in_or_app; right).
        apply in_or_app; left; exact Hin.
      * intros Hsame; rewrite (Hexcl eq_refl) in Hsame; discriminate.
    + split; [ rewrite Hstep; cbn; split; discriminate | ].
      split; [ discriminate | intros _; rewrite Hstep; reflexivity ].
  - (* the delete requests of the run *)
    intros req out Hin Hmethod.
    assert (Hno : forall evs, forallb (not_request DELETE) evs = true ->
                              ~ In (EvHttp req out) evs).
    { intros evs Hall Hin_evs.
      assert (H := proj1 (forallb_forall _ _) Hall _ Hin_evs).
      unfold not_request in H; cbn in H; rewrite Hmethod in H; discriminate. }
    assert (Hchecked : forallb (not_request DELETE) (emitted checked) = true).
    { destruct (does_data_stream_exist_emits name st) as (out0 & Hev & _).
      unfold checked; rewrite Hev; reflexivity. }
    rewrite Hrun in Hin.
    apply in_app_or in Hin; destruct Hin as [Hin | Hin];
      [ exfalso; exact (Hno _ Hchecked Hin) | ].
    apply in_app_or in Hin; destruct Hin as [Hin | Hin];
      [ exfalso; exact (Hno _ (backing_indices_no_delete name (final checked)) Hin) | ].
    apply in_app_or in Hin; destruct Hin as [Hin | Hin];
      [ exfalso;
        exact (Hno _ (creation_dates_no_delete indices [] (final listed)) Hin) | ].
    apply in_app_or in Hin; destruct Hin as [Hin | Hin];
      [ | exfalso; exact (Hno _ Hending Hin) ].
    destruct (sweep_delete_position d dates (final dated) req out Hin Hmethod)
      as (before & index & created & after & Hsplit & Hres & Hreq & Hgt).
    exists before, index, created, after.
    rewrite Hself in Hreq.
    repeat split; assumption.
  - (* the creation times *)
    intros index created Hin.
    destruct (creation_dates_provenance indices [] (final listed) dates Hdated
                index created Hin)
      as [[] | (listed_index & r & cd & millis & Hl & Hsent & Hk & Hcd & Hm & Hs)].
    exists listed_index, r, cd, millis.
    rewrite Hself_listed in Hsent.
    repeat split; assumption.
Qed.

(** * Further properties *)

Local Abbreviation dispatch := (dispatch W serve tick).
Local Abbreviation main := (main W serve tick).

(** ** Rollover and deletion *)

(** X1. Once the existence query has been answered 200, [rollover_data_stream]
    sends one POST to [<url>/<name>/_rollover]: it raises when that call
    yields no response or a 4xx or 5xx status, and otherwise logs the
    rollover and returns. *)
Theorem rollover_data_stream_when_present :
  forall (name : string) (st : St W) (w : W) (r : Response),
    serve (world st) (data_stream_query (self st) name) = (w, Responded r) ->
    status_code r = 200%Z ->
    let rollover :=
      {| method := POST;
         url := opensearch_url (self st) ++ "/" ++ name ++ "/_rollover";
         json := None;
         req_auth := auth (self st);
         verify := false |} in
    let out := snd (serve w rollover) in
    let run := rollover_data_stream name st in
    let sent := [EvHttp (data_stream_query (self st) name) (Responded r);
                 EvHttp rollover out] in
    match out with
    | Failed => result run = Raised RequestException /\ emitted run = sent
    | Responded answer =>
        if is_error_status (status_code answer)
        then result run = Raised (HTTPError (status_code answer))
             /\ emitted run = sent
        else result run = Ok tt
             /\ emitted run = (sent ++ [EvLog INFO (RolloverDataStream name)])%list
    end.
Proof.
  intros name st w r Hquery H200 rollover out run sent; subst rollover out run sent.
  unfold rollover_data_stream, does_data_stream_exist, data_stream_query in *.
  unfold_method.
  rewrite Hquery; cbn -[append]. rewrite H200; cbn -[append].
  destruct (serve w _) as [w1 [answer | ]]; cbn -[append]; [ | auto ].
  destruct (is_error_status (status_code answer)); cbn -[append]; auto.
Qed.

Lemma delete_index_single_request_run index st :
  let out := snd (serve (world st) (index_deletion (self st) index)) in
  let run := delete_index index st in
  match out with
  | Failed =>
      result run = Raised RequestException
      /\ emitted run = [EvHttp (index_deletion (self st) index) out]
  | Responded answer =>
      if is_error_status (status_code answer)
      then result run = Raised (HTTPError (status_code answer))
           /\ emitted run = [EvHttp (index_deletion (self st) index) out]
      else result run = Ok tt
           /\ emitted run = [EvHttp (index_deletion (self st) index) out;
                             EvLog INFO (DeletedIndex index)]
  end.
Proof.
  intros out run; subst out run.
  unfold delete_index, index_deletion; unfold_method.
  destruct (serve (world st) _) as [w [answer | ]]; cbn -[append]; [ | auto ].
  destruct (is_error_status (status_code answer)); cbn -[append]; auto.
Qed.

(** X2. [delete_index] sends exactly one request, a DELETE to [<url>/<index>];
    it raises when the call yields no response or a 4xx or 5xx status,
    and only otherwise logs the index as deleted. *)
Theorem delete_index_single_request :
  forall (index : JSON) (st : St W),
    let deletion :=
      {| method := DELETE;
         url := opensearch_url (self st) ++ "/" ++ py_str index;
         json := None;
         req_auth := auth (self st);
         verify := false |} in
    let out := snd (serve (world st) deletion) in
    let run := delete_index index st in
    requests_of (emitted run) = [deletion]
    /\ match out with
       | Failed =>
           result run = Raised RequestException
           /\ emitted run = [EvHttp deletion out]
       | Responded answer =>
           if is_error_status (status_code answer)
           then result run = Raised (HTTPError (status_code answer))
                /\ emitted run = [EvHttp deletion out]
           else result run = Ok tt
                /\ emitted run = [EvHttp deletion out; EvLog INFO (DeletedIndex index)]
       end.
Proof.
  intros index st deletion out run; subst deletion out run.
  unfold delete_index; unfold_method.
  destruct (serve (world st) _) as [w [answer | ]]; cbn -[append]; [ | auto ].
  destruct (is_error_status (status_code answer)); cbn -[append]; auto.
Qed.

(** ** The existence check inside rollover and cleanup *)

(** X3. When the existence query yields no response, the exception of
    [requests] goes through [rollover_data_stream] and
    [clean_old_data_stream_indices] untouched: nothing is logged and
    nothing else is sent. *)
Theorem existence_query_failure_propagates :
  forall (name : string) (d : Z) (st : St W) (w : W),
    serve (world st) (data_stream_query (self st) name) = (w, Failed) ->
    let sent := [EvHttp (data_stream_query (self st) name) Failed] in
    result (rollover_data_stream name st) = Raised RequestException
    /\ emitted (rollover_data_stream name st) = sent
    /\ result (clean_old_data_stream_indices name d st) = Raised RequestException
    /\ emitted (clean_old_data_stream_indices name d st) = sent.
Proof.
  intros name d st w Hquery sent; subst sent.
  assert (Hrun := does_data_stream_exist_run name st).
  rewrite Hquery in Hrun.
  unfold rollover_data_stream, clean_old_data_stream_indices.
  rewrite !bind_unfold, Hrun; cbn -[append]; auto.
Qed.

(** X4. An answer to the existence query with any status other than 200, a
    401 or a 500 as well as a 404, is taken as "does not exist":
    rollover and cleanup log that error and return, and send nothing
    else. *)
Theorem any_other_status_reads_as_missing :
  forall (name : string) (d : Z) (st : St W) (w : W) (r : Response),
    serve (world st) (data_stream_query (self st) name) = (w, Responded r) ->
    status_code r <> 200%Z ->
    let sent := [EvHttp (data_stream_query (self st) name) (Responded r);
                 EvLog ERROR (DataStreamDoesNotExist name)] in
    result (rollover_data_stream name st) = Ok tt
    /\ emitted (rollover_data_stream name st) = sent
    /\ result (clean_old_data_stream_indices name d st) = Ok tt
    /\ emitted (clean_old_data_stream_indices name d st) = sent.
Proof.
  intros name d st w r Hquery Hstatus sent; subst sent.
  assert (Hrun := does_data_stream_exist_run name st).
  rewrite Hquery in Hrun.
  apply Z.eqb_neq in Hstatus.
  unfold rollover_data_stream, clean_old_data_stream_indices.
  rewrite !bind_unfold, Hrun; cbn -[append]. rewrite Hstatus; cbn -[append]; auto.
Qed.

(** ** Which methods send what *)

Lemma all_events_weaken {A : Type} (test test' : Event -> bool) (m : M W A) :
  (forall e, test e = true -> test' e = true) ->
  all_events W test m -> all_events W test' m.
Proof.
  intros Himp Hm st.
  apply forallb_forall; intros e He.
  apply Himp. revert e He; apply forallb_forall, Hm.
Qed.

Lemma creation_dates_only_gets indices :
  forall dates, all_events W (only_methods [GET]) (creation_dates indices dates).
Proof.
  induction indices as [ | index rest IH]; intros dates; cbn.
  - apply all_events_ret.
  - apply all_events_bind; [ | intros; apply IH ].
    unfold record_creation_date; all_events_auto.
Qed.

Lemma delete_if_old_only_deletes d entry :
  all_events W (only_methods [DELETE]) (delete_if_old d entry).
Proof.
  destruct entry as [index creation_date]; unfold delete_if_old, delete_index.
  all_events_auto.
Qed.

Lemma gets_among_gets_and_deletes e :
  only_methods [GET] e = true -> only_methods [GET; DELETE] e = true.
Proof.
  destruct e as [req out | t | level msg]; cbn; auto.
  destruct (method req); cbn; auto.
Qed.

Lemma deletes_among_gets_and_deletes e :
  only_methods [DELETE] e = true -> only_methods [GET; DELETE] e = true.
Proof.
  destruct e as [req out | t | level msg]; cbn; auto.
  destruct (method req); cbn; auto.
Qed.

Lemma check_connection_only_gets : all_events W (only_methods [GET]) check_connection.
Proof. unfold check_connection; all_events_auto. Qed.

Lemma does_data_stream_exist_only_gets name :
  all_events W (only_methods [GET]) (does_data_stream_exist name).
Proof. unfold does_data_stream_exist; all_events_auto. Qed.

Lemma create_data_stream_only_puts name :
  all_events W (only_methods [PUT]) (create_data_stream name).
Proof. unfold create_data_stream; all_events_auto. Qed.

Lemma rollover_only_gets_and_posts name :
  all_events W (only_methods [GET; POST]) (rollover_data_stream name).
Proof. unfold rollover_data_stream, does_data_stream_exist; all_events_auto. Qed.

Lemma delete_index_only_deletes index :
  all_events W (only_methods [DELETE]) (delete_index index).
Proof. unfold delete_index; all_events_auto. Qed.

Lemma clean_only_gets_and_deletes name d :
  all_events W (only_methods [GET; DELETE]) (clean_old_data_stream_indices name d).
Proof.
  unfold clean_old_data_stream_indices.
  apply all_events_bind;
    [ unfold does_data_stream_exist; all_events_auto | intros present ].
  destruct (negb present); [ all_events_auto | ].
  apply all_events_bind; [ unfold backing_indices; all_events_auto | intros indices ].
  apply all_events_bind; [ | intros dates ].
  - apply (all_events_weaken _ _ _ gets_among_gets_and_deletes).
    apply creation_dates_only_gets.
  - apply all_events_bind; [ | intros; all_events_auto ].
    apply for_each_all_events; intros entry.
    apply (all_events_weaken _ _ _ deletes_among_gets_and_deletes).
    apply delete_if_old_only_deletes.
Qed.

(** X5. The connectivity and existence checks only send GETs,
    [create_data_stream] only PUTs, [rollover_data_stream] only GETs and
    POSTs, [delete_index] only DELETEs, and the cleanup only GETs and
    DELETEs: nothing but [delete_index] and the cleanup ever deletes, and
    nothing but [create_data_stream] ever creates. *)
Theorem methods_sent_by_each_operation :
  (forall st, forallb (only_methods [GET]) (emitted (check_connection st)) = true)
  /\ (forall name st,
        forallb (only_methods [GET]) (emitted (does_data_stream_exist name st)) = true)
  /\ (forall name st,
        forallb (only_methods [PUT]) (emitted (create_data_stream name st)) = true)
  /\ (forall name st,
        forallb (only_methods [GET; POST]) (emitted (rollover_data_stream name st)) = true)
  /\ (forall index st,
        forallb (only_methods [DELETE]) (emitted (delete_index index st)) = true)
  /\ (forall name d st,
        forallb (only_methods [GET; DELETE])
                (emitted (clean_old_data_stream_indices name d st)) = true).
Proof.
  split; [ exact check_connection_only_gets | ].
  split; [ exact does_data_stream_exist_only_gets | ].
  split; [ exact create_data_stream_only_puts | ].
  split; [ exact rollover_only_gets_and_posts | ].
  split; [ exact delete_index_only_deletes | ].
  exact clean_only_gets_and_deletes.
Qed.

(** ** Every call goes to the configured endpoint *)

Lemma prefix_append (s t : string) : prefix s (s ++ t) = true.
Proof.
  induction s as [ | a s IH]; cbn.
  - destruct t; reflexivity.
  - destruct (ascii_dec a a) as [ _ | Hneq]; [ exact IH | contradiction ].
Qed.

Lemma sent_as_own this m path payload out :
  sent_as this (EvHttp (mkRequest m (opensearch_url this ++ path) payload (auth this) false) out)
  = true.
Proof.
  unfold sent_as, auth_eqb; cbn -[append prefix].
  rewrite !String.eqb_refl, prefix_append; reflexivity.
Qed.

Lemma calls_as_silent {A : Type} this (m : M W A) :
  (forall st, emitted (m st) = []) -> calls_as W this m.
Proof. intros Hm st _; rewrite Hm; reflexivity. Qed.

Lemma calls_as_emit_log this level msg : calls_as W this (emit W (EvLog level msg)).
Proof. intros st _; reflexivity. Qed.

Lemma calls_as_time_time this : calls_as W this (time_time W tick).
Proof.
  intros st _; unfold time_time; destruct (tick (world st)); reflexivity.
Qed.

Lemma calls_as_requests_call this req :
  (forall out, sent_as this (EvHttp req out) = true) ->
  calls_as W this (requests_call W serve req).
Proof.
  intros Hreq st _; unfold requests_call.
  destruct (serve (world st) req) as [w out]; cbn -[sent_as].
  rewrite Hreq; reflexivity.
Qed.

Lemma calls_as_bind {A B : Type} this (m : M W A) (k : A -> M W B) :
  keeps_self W m ->
  calls_as W this m -> (forall a, calls_as W this (k a)) ->
  calls_as W this (bind W m k).
Proof.
  intros Hkeeps Hm Hk st Hself; rewrite bind_unfold.
  destruct (result (m st)) as [a | e]; cbn [emitted].
  - rewrite forallb_app, (Hm st Hself), Hk; [ reflexivity | ].
    rewrite Hkeeps; exact Hself.
  - apply Hm, Hself.
Qed.

Lemma calls_as_get_self this {B : Type} (k : OpenSearch -> M W B) :
  calls_as W this (k this) -> calls_as W this (bind W (get_self W) k).
Proof.
  intros Hk st Hself; rewrite bind_unfold; cbn [get_self result final emitted app].
  rewrite Hself; apply Hk, Hself.
Qed.

Ltac calls_as_step :=
  first
    [ assumption
    | apply calls_as_get_self
    | apply calls_as_bind; [ keeps_self_auto | | intros ]
    | apply calls_as_emit_log
    | apply calls_as_time_time
    | apply calls_as_requests_call; intros; apply sent_as_own
    | apply calls_as_silent; intros; reflexivity
    | match goal with
      | |- calls_as _ _ (if ?b then _ else _) => destruct b
      | |- calls_as _ _ (match ?x with _ => _ end) => destruct x
      end ].

Ltac calls_as_auto :=
  unfold requests_get, requests_put, requests_post, requests_delete,
    raise_for_status, response_json, logging_info, logging_error;
  repeat calls_as_step.

Lemma calls_as_check_connection this : calls_as W this check_connection.
Proof. unfold check_connection; calls_as_auto. Qed.

Lemma calls_as_does_data_stream_exist this name :
  calls_as W this (does_data_stream_exist name).
Proof. unfold does_data_stream_exist; calls_as_auto. Qed.

Lemma calls_as_create_data_stream this name :
  calls_as W this (create_data_stream name).
Proof. unfold create_data_stream; calls_as_auto. Qed.

Lemma calls_as_rollover_data_stream this name :
  calls_as W this (rollover_data_stream name).
Proof.
  unfold rollover_data_stream.
  apply calls_as_bind;
    [ apply keeps_self_does_data_stream_exist
    | apply calls_as_does_data_stream_exist | intros present ].
  calls_as_auto.
Qed.

Lemma calls_as_delete_index this index : calls_as W this (delete_index index).
Proof. unfold delete_index; calls_as_auto. Qed.

Lemma calls_as_creation_dates this indices :
  forall dates, calls_as W this (creation_dates indices dates).
Proof.
  induction indices as [ | index rest IH]; intros dates; cbn.
  - apply calls_as_silent; intros; reflexivity.
  - apply calls_as_bind;
      [ apply keeps_self_record_creation_date | | intros; apply IH ].
    unfold record_creation_date; calls_as_auto.
Qed.

Lemma calls_as_delete_if_old this d entry : calls_as W this (delete_if_old d entry).
Proof.
  destruct entry as [index creation_date]; unfold delete_if_old.
  assert (Hdel := calls_as_delete_index this index).
  calls_as_auto.
Qed.

Lemma calls_as_for_each {A : Type} this (body : A -> M W unit) xs :
  (forall x, keeps_self W (body x)) -> (forall x, calls_as W this (body x)) ->
  calls_as W this (for_each W body xs).
Proof.
  intros Hkeeps Hbody; induction xs as [ | x rest IH]; cbn.
  - apply calls_as_silent; intros; reflexivity.
  - apply calls_as_bind; [ apply Hkeeps | apply Hbody | intros; apply IH ].
Qed.

Lemma calls_as_clean this name d :
  calls_as W this (clean_old_data_stream_indices name d).
Proof.
  unfold clean_old_data_stream_indices.
  apply calls_as_bind;
    [ apply keeps_self_does_data_stream_exist
    | apply calls_as_does_data_stream_exist | intros present ].
  destruct (negb present); [ apply calls_as_emit_log | ].
  apply calls_as_bind;
    [ apply keeps_self_backing_indices
    | unfold backing_indices; calls_as_auto | intros indices ].
  apply calls_as_bind;
    [ apply keeps_self_creation_dates | apply calls_as_creation_dates | intros dates ].
  apply calls_as_bind; [ | | intros; apply calls_as_emit_log ].
  - apply keeps_self_for_each; intros; apply keeps_self_delete_if_old.
  - apply calls_as_for_each; intros;
      [ apply keeps_self_delete_if_old | apply calls_as_delete_if_old ].
Qed.

(** X6. Every HTTP call of every method carries the administrator's auth
    object, has certificate verification switched off, and is addressed
    under the administrator's endpoint: no method ever calls anything
    else, or as anyone else. *)
Theorem every_call_uses_the_connection :
  (forall st, forallb (sent_as (self st)) (emitted (check_connection st)) = true)
  /\ (forall name st,
        forallb (sent_as (self st)) (emitted (does_data_stream_exist name st)) = true)
  /\ (forall name st,
        forallb (sent_as (self st)) (emitted (create_data_stream name st)) = true)
  /\ (forall name st,
        forallb (sent_as (self st)) (emitted (rollover_data_stream name st)) = true)
  /\ (forall index st,
        forallb (sent_as (self st)) (emitted (delete_index index st)) = true)
  /\ (forall name d st,
        forallb (sent_as (self st))
                (emitted (clean_old_data_stream_indices name d st)) = true).
Proof.
  split; [ intros st; apply (calls_as_check_connection (self st)); reflexivity | ].
  split; [ intros name st;
           apply (calls_as_does_data_stream_exist (self st)); reflexivity | ].
  split; [ intros name st;
           apply (calls_as_create_data_stream (self st)); reflexivity | ].
  split; [ intros name st;
           apply (calls_as_rollover_data_stream (self st)); reflexivity | ].
  split; [ intros index st; apply (calls_as_delete_index (self st)); reflexivity | ].
  intros name d st; apply (calls_as_clean (self st)); reflexivity.
Qed.

(** ** The dict of creation dates *)

Lemma dict_assign_keys key s (d : Dates) k v :
  In (k, v) (dict_assign key s d) -> (exists v0, In (k, v0) d) \/ k = key.
Proof.
  induction d as [ | [k0 old] rest IH]; cbn.
  - intros [Heq | []]; injection Heq as <- <-; auto.
  - destruct (py_eq k0 key); cbn.
    + intros [Heq | Hin].
      * injection Heq as <- <-; left; exists old; auto.
      * left; exists v; auto.
    + intros [Heq | Hin].
      * injection Heq as <- <-; left; exists old; auto.
      * destruct (IH Hin) as [[v0 Hv0] | Hkey]; [ left; exists v0; auto | auto ].
Qed.

Lemma dict_assign_keeps key s (d : Dates) k v :
  In (k, v) d -> exists v', In (k, v') (dict_assign key s d).
Proof.
  induction d as [ | [k0 old] rest IH]; cbn; [ intros [] | ].
  destruct (py_eq k0 key); cbn.
  - intros [Heq | Hin].
    + injection Heq as <- <-; exists s; auto.
    + exists v; auto.
  - intros [Heq | Hin].
    + injection Heq as <- <-; exists old; auto.
    + destruct (IH Hin) as [v' Hv']; exists v'; auto.
Qed.

Lemma dict_assign_has key s (d : Dates) :
  exists k, In (k, s) (dict_assign key s d) /\ (k = key \/ py_eq k key = true).
Proof.
  induction d as [ | [k0 old] rest IH]; cbn.
  - exists key; auto.
  - destruct (py_eq k0 key) eqn:Heq; cbn.
    + exists k0; auto.
    + destruct IH as (k & Hin & Hk); exists k; auto.
Qed.

Lemma dict_assign_length key s (d : Dates) :
  (List.length (dict_assign key s d) <= S (List.length d))%nat.
Proof.
  induction d as [ | [k0 old] rest IH]; cbn; [ lia | ].
  destruct (py_eq k0 key); cbn; lia.
Qed.

Lemma dict_assign_forallb (test : JSON -> bool) key s (d : Dates) :
  forallb (fun entry => test (fst entry)) d = true ->
  test key = true ->
  forallb (fun entry => test (fst entry)) (dict_assign key s d) = true.
Proof.
  intros Hd Hkey; induction d as [ | [k0 old] rest IH]; cbn in *.
  - rewrite Hkey; reflexivity.
  - apply andb_true_iff in Hd; destruct Hd as [Hk0 Hrest].
    destruct (py_eq k0 key); cbn; rewrite Hk0; cbn; auto.
Qed.

Lemma dict_assign_distinct key s (d : Dates) :
  distinct_keys d = true -> distinct_keys (dict_assign key s d) = true.
Proof.
  induction d as [ | [k0 old] rest IH]; cbn; [ reflexivity | ].
  intros Hd; apply andb_true_iff in Hd; destruct Hd as [Hk0 Hrest].
  destruct (py_eq k0 key) eqn:Heq; cbn.
  - rewrite Hk0, Hrest; reflexivity.
  - rewrite (IH Hrest), andb_true_r.
    apply (dict_assign_forallb (fun k => negb (py_eq k0 k))); [ assumption | ].
    rewrite Heq; reflexivity.
Qed.

(** What the first loop returns, against what it started from. *)
Lemma creation_dates_returns indices :
  forall dates st dates',
    result (creation_dates indices dates st) = Ok dates' ->
    (distinct_keys dates = true -> distinct_keys dates' = true)
    /\ (List.length dates' <= List.length dates + List.length indices)%nat
    /\ (forall k v, In (k, v) dates' -> (exists v0, In (k, v0) dates) \/ In k indices)
    /\ (forall k v, In (k, v) dates -> exists v', In (k, v') dates')
    /\ (forall index, In index indices ->
          exists k v, In (k, v) dates' /\ (k = index \/ py_eq k index = true)).
Proof.
  induction indices as [ | index rest IH]; intros dates st dates'.
  - cbn. intros Hret; injection Hret as <-.
    split; [ auto | ].
    split; [ lia | ].
    split; [ intros k v Hin; left; exists v; exact Hin | ].
    split; [ intros k v Hin; exists v; exact Hin | intros index [] ].
  - change (creation_dates (index :: rest) dates st)
      with (bind W (record_creation_date index dates)
                   (fun dates1 => creation_dates rest dates1) st).
    intros Hret.
    destruct (bind_returns _ _ _ _ Hret) as (dates1 & Hfirst & Hrest & _).
    destruct (record_creation_date_returns _ _ _ _ Hfirst)
      as (r & cd & millis & seconds & _ & _ & _ & _ & ->).
    destruct (IH _ _ _ Hrest) as (Hdistinct & Hlength & Hkeys & Hkeeps & Hcovers).
    split; [ intros Hd; apply Hdistinct, dict_assign_distinct, Hd | ].
    split; [ assert (Hl := dict_assign_length index seconds dates); cbn; lia | ].
    split; [ | split ].
    + intros k v Hin.
      destruct (Hkeys k v Hin) as [[v0 Hv0] | Hin_rest]; [ | right; right; exact Hin_rest ].
      destruct (dict_assign_keys _ _ _ _ _ Hv0) as [Hold | ->]; [ left; exact Hold | ].
      right; left; reflexivity.
    + intros k v Hin.
      destruct (dict_assign_keeps index seconds dates k v Hin) as [v1 Hv1].
      apply (Hkeeps k v1 Hv1).
    + intros index' [<- | Hin].
      * destruct (dict_assign_has index seconds dates) as (k & Hk & Heq).
        destruct (Hkeeps k seconds Hk) as [v' Hv'].
        exists k, v'; auto.
      * apply Hcovers, Hin.
Qed.

(** X7. The dict that the first pass of the cleanup builds has one entry for
    every listed index and no other: its keys are pairwise different,
    each is a listed index, every listed index is (equal to) a key, and
    so an index listed twice is put to the retention test once. *)
Theorem creation_dates_cover_the_listed_indices :
  forall (indices : list JSON) (st : St W) (dates : Dates),
    result (creation_dates indices [] st) = Ok dates ->
    distinct_keys dates = true
    /\ (List.length dates <= List.length indices)%nat
    /\ (forall k v, In (k, v) dates -> In k indices)
    /\ (forall index, In index indices ->
          exists k v, In (k, v) dates /\ (k = index \/ py_eq k index = true)).
Proof.
  intros indices st dates Hret.
  destruct (creation_dates_returns indices [] st dates Hret)
    as (Hdistinct & Hlength & Hkeys & _ & Hcovers).
  split; [ apply Hdistinct; reflexivity | ].
  split; [ exact Hlength | ].
  split; [ | exact Hcovers ].
  intros k v Hin; destruct (Hkeys k v Hin) as [[v0 []] | Hk]; exact Hk.
Qed.

(** ** The settings queries *)

Lemma requests_of_app evs1 evs2 :
  requests_of (evs1 ++ evs2) = (requests_of evs1 ++ requests_of evs2)%list.
Proof.
  induction evs1 as [ | [req out | t | level msg] rest IH]; cbn;
    rewrite ?IH; reflexivity.
Qed.

(** Whether it returns or raises, the body of the first loop has sent one
    request: the settings query for its index. *)
Lemma record_creation_date_requests index dates st :
  requests_of (emitted (record_creation_date index dates st))
  = [index_query (self st) index].
Proof.
  unfold record_creation_date, index_query, dict_setitem.
  unfold bind, get_self, requests_get, requests_call, raise_for_status,
    response_json, lift, ret, raise.
  cbn -[append py_getitem py_int truediv dict_assign hashable].
  destruct (serve (world st) _) as [w [r | ]];
    cbn -[append py_getitem py_int truediv dict_assign hashable]; [ | reflexivity ].
  destruct (is_error_status (status_code r));
    cbn -[append py_getitem py_int truediv dict_assign hashable]; [ reflexivity | ].
  destruct (body r) as [decoded | ];
    cbn -[append py_getitem py_int truediv dict_assign hashable]; [ | reflexivity ].
  destruct (py_getitem decoded index) as [entry | ];
    cbn -[append py_getitem py_int truediv dict_assign hashable]; [ | reflexivity ].
  destruct (py_getitem entry (JStr "settings")) as [settings | ];
    cbn -[append py_getitem py_int truediv dict_assign hashable]; [ | reflexivity ].
  destruct (py_getitem settings (JStr "index")) as [index_settings | ];
    cbn -[append py_getitem py_int truediv dict_assign hashable]; [ | reflexivity ].
  destruct (py_getitem index_settings (JStr "creation_date")) as [cd | ];
    cbn -[append py_getitem py_int truediv dict_assign hashable]; [ | reflexivity ].
  destruct (py_int cd) as [millis | ];
    cbn -[append py_getitem py_int truediv dict_assign hashable]; [ | reflexivity ].
  destruct (truediv millis 1000) as [seconds | ];
    cbn -[append py_getitem py_int truediv dict_assign hashable]; [ | reflexivity ].
  destruct (hashable index);
    cbn -[append py_getitem py_int truediv dict_assign hashable]; reflexivity.
Qed.

(** X8. The first loop queries the settings of the listed indices one by
    one, in the order of the listing and once per listing (an index listed
    twice is queried twice): what it has sent is always a beginning of
    that sequence, and the whole of it when the loop returns. *)
Theorem settings_queries_follow_the_listing :
  forall (indices : list JSON) (dates : Dates) (st : St W),
    let run := creation_dates indices dates st in
    exists unqueried,
      map (index_query (self st)) indices
        = (requests_of (emitted run) ++ map (index_query (self st)) unqueried)%list
      /\ (forall dates', result run = Ok dates' -> unqueried = []).
Proof.
  induction indices as [ | index rest IH]; intros dates st run; subst run.
  - exists []; split; [ reflexivity | auto ].
  - change (creation_dates (index :: rest) dates st)
      with (bind W (record_creation_date index dates)
                   (fun dates1 => creation_dates rest dates1) st).
    rewrite bind_unfold.
    assert (Hreq := record_creation_date_requests index dates st).
    assert (Hself := keeps_self_record_creation_date index dates st).
    destruct (result (record_creation_date index dates st)) as [dates1 | e];
      cbn [emitted result map].
    + destruct (IH dates1 (final (record_creation_date index dates st)))
        as (unqueried & Hsent & Hnone).
      rewrite Hself in Hsent.
      exists unqueried; split; [ | exact Hnone ].
      rewrite requests_of_app, Hreq, Hsent; reflexivity.
    + exists rest; split; [ rewrite Hreq; reflexivity | discriminate ].
Qed.

(** ** What the cleanup deletes *)

Lemma no_delete_among evs req out :
  forallb (not_request DELETE) evs = true ->
  In (EvHttp req out) evs -> method req = DELETE -> False.
Proof.
  intros Hall Hin Hmethod.
  assert (H := proj1 (forallb_forall _ _) Hall _ Hin).
  unfold not_request in H; cbn in H; rewrite Hmethod in H; discriminate.
Qed.

(** Every delete request of the second loop is for a key of the dict. *)
Lemma sweep_deletes_only_entries d dates :
  forall st req out,
    In (EvHttp req out) (emitted (for_each W (delete_if_old d) dates st)) ->
    method req = DELETE ->
    exists k v, In (k, v) dates /\ req = index_deletion (self st) k.
Proof.
  induction dates as [ | [k v] rest IH]; intros st req out Hin Hmethod.
  - destruct Hin.
  - change (for_each W (delete_if_old d) ((k, v) :: rest) st)
      with (bind W (delete_if_old d (k, v))
                   (fun _ => for_each W (delete_if_old d) rest) st) in Hin.
    rewrite bind_unfold in Hin.
    assert (Hself := keeps_self_delete_if_old d (k, v) st).
    assert (Hbody : In (EvHttp req out) (emitted (delete_if_old d (k, v) st)) ->
                    req = index_deletion (self st) k).
    { assert (Hrun := delete_if_old_run d k v st); cbn zeta in Hrun.
      destruct (float_gt_int _ _).
      - destruct Hrun as (again & out0 & tail & -> & Htail).
        intros [Heq | [Heq | [Heq | [Heq | Hin_tail]]]]; try discriminate.
        + injection Heq as <- _; reflexivity.
        + exfalso; apply (no_delete_among tail req out); assumption.
      - rewrite Hrun; intros [Heq | []]; discriminate. }
    destruct (result (delete_if_old d (k, v) st)) as [u | e]; cbn [emitted] in Hin.
    + apply in_app_or in Hin; destruct Hin as [Hin | Hin].
      * exists k, v; split; [ left; reflexivity | apply Hbody, Hin ].
      * destruct (IH _ _ _ Hin Hmethod) as (k' & v' & Hin' & Hreq).
        rewrite Hself in Hreq.
        exists k', v'; split; [ right; exact Hin' | exact Hreq ].
    + exists k, v; split; [ left; reflexivity | apply Hbody, Hin ].
Qed.

(** X9. Whatever the cleanup deletes is a backing index that the descriptor
    of the data stream listed: every delete request of a run goes to
    [<url>/<index>] for an [index] of the list that the descriptor query
    returned. *)
Theorem clean_deletes_only_listed_indices :
  forall (name : string) (d : Z) (st : St W) (req : Request) (out : Outcome),
    In (EvHttp req out) (emitted (clean_old_data_stream_indices name d st)) ->
    method req = DELETE ->
    exists indices index,
      result (backing_indices name (final (does_data_stream_exist name st))) = Ok indices
      /\ In index indices
      /\ req = index_deletion (self st) index.
Proof.
  intros name d st req out Hin Hmethod.
  destruct (does_data_stream_exist_emits name st) as (out0 & Hev & _).
  assert (Hchecked :
    forallb (not_request DELETE) (emitted (does_data_stream_exist name st)) = true)
    by (rewrite Hev; reflexivity).
  destruct (result (does_data_stream_exist name st)) as [[ | ] | e] eqn:Hres.
  - rewrite (clean_run_when_present name d st Hres) in Hin; cbn zeta in Hin.
    set (st1 := final (does_data_stream_exist name st)) in *.
    assert (Hself1 : self st1 = self st)
      by apply keeps_self_does_data_stream_exist.
    assert (Hlisted := backing_indices_no_delete name st1).
    assert (Hself2 := keeps_self_backing_indices name st1).
    destruct (result (backing_indices name st1)) as [indices | e] eqn:Hindices.
    + set (st2 := final (backing_indices name st1)) in *.
      assert (Hdated := creation_dates_no_delete indices [] st2).
      assert (Hself3 := keeps_self_creation_dates indices [] st2).
      destruct (result (creation_dates indices [] st2)) as [dates | e] eqn:Hdates.
      * set (st3 := final (creation_dates indices [] st2)) in *.
        assert (Hswept :
          In (EvHttp req out) (emitted (for_each W (delete_if_old d) dates st3))).
        { destruct (result (for_each W (delete_if_old d) dates st3));
            cbn [emitted] in Hin;
            repeat (apply in_app_or in Hin; destruct Hin as [Hin | Hin]);
            try assumption;
            try (exfalso; refine (no_delete_among _ req out _ Hin Hmethod); assumption).
          destruct Hin as [Heq | []]; discriminate. }
        destruct (sweep_deletes_only_entries d dates st3 req out Hswept Hmethod)
          as (k & v & Hentry & Hreq).
        assert (Hk : In k indices).
        { destruct (creation_dates_returns indices [] st2 dates Hdates)
            as (_ & _ & Hkeys & _).
          destruct (Hkeys k v Hentry) as [[v0 []] | Hk]; exact Hk. }
        exists indices, k; split; [ reflexivity | split; [ exact Hk | ] ].
        rewrite Hreq, Hself3, Hself2, Hself1; reflexivity.
      * cbn [emitted] in Hin.
        exfalso.
        repeat (apply in_app_or in Hin; destruct Hin as [Hin | Hin]);
          refine (no_delete_among _ req out _ Hin Hmethod); assumption.
    + cbn [emitted] in Hin.
      exfalso.
      repeat (apply in_app_or in Hin; destruct Hin as [Hin | Hin]);
        refine (no_delete_among _ req out _ Hin Hmethod); assumption.
  - exfalso.
    unfold clean_old_data_stream_indices in Hin.
    rewrite (bind_result_ok _ _ _ _ Hres) in Hin.
    cbn [negb emitted logging_error emit] in Hin.
    apply in_app_or in Hin; destruct Hin as [Hin | [Heq | []]];
      [ refine (no_delete_among _ req out _ Hin Hmethod); assumption | discriminate ].
  - exfalso.
    unfold clean_old_data_stream_indices in Hin.
    rewrite (bind_result_raised _ _ _ _ Hres) in Hin.
    cbn [emitted] in Hin.
    refine (no_delete_among _ req out _ Hin Hmethod); assumption.
Qed.

(** X10. A data stream whose descriptor lists no backing index: the cleanup
    sends the existence query and the descriptor query and nothing else,
    reads no clock, and logs that it has finished. *)
Theorem clean_of_a_data_stream_without_indices :
  forall (name : string) (d : Z) (st : St W),
    result (does_data_stream_exist name st) = Ok true ->
    result (backing_indices name (final (does_data_stream_exist name st))) = Ok [] ->
    result (clean_old_data_stream_indices name d st) = Ok tt
    /\ emitted (clean_old_data_stream_indices name d st)
       = (emitted (does_data_stream_exist name st)
            ++ emitted (backing_indices name (final (does_data_stream_exist name st)))
            ++ [EvLog INFO (FinishedCleaning name)])%list.
Proof.
  intros name d st Hpresent Hlisted.
  rewrite (clean_run_when_present name d st Hpresent); cbn zeta.
  rewrite Hlisted; cbn; auto.
Qed.

(** ** A delete request that goes wrong *)

Lemma no_delete_no_failed_delete evs :
  forallb (not_request DELETE) evs = true -> existsb failed_delete evs = false.
Proof.
  induction evs as [ | e rest IH]; cbn; [ reflexivity | ].
  intros H; apply andb_true_iff in H; destruct H as [He Hrest].
  rewrite (IH Hrest), orb_false_r.
  unfold failed_delete, not_request in *.
  destruct (is_request DELETE e); [ discriminate | reflexivity ].
Qed.

Lemma no_failed_delete_stops evs :
  existsb failed_delete evs = false -> stops_at_failed_delete evs = true.
Proof.
  induction evs as [ | e rest IH]; cbn; [ reflexivity | ].
  intros H; apply orb_false_iff in H; destruct H as [He Hrest].
  rewrite He, (IH Hrest); reflexivity.
Qed.

Lemma stops_after_clean_prefix evs1 evs2 :
  existsb failed_delete evs1 = false ->
  stops_at_failed_delete (evs1 ++ evs2) = stops_at_failed_delete evs2.
Proof.
  induction evs1 as [ | e rest IH]; cbn; [ reflexivity | ].
  intros H; apply orb_false_iff in H; destruct H as [He Hrest].
  rewrite He, (IH Hrest); reflexivity.
Qed.

Lemma aborts_without_delete {A : Type} (m : M W A) :
  all_events W (not_request DELETE) m -> aborts_on_failed_delete W m.
Proof.
  intros Hm st.
  assert (Hnone := no_delete_no_failed_delete _ (Hm st)).
  split; [ apply no_failed_delete_stops, Hnone | intros; exact Hnone ].
Qed.

Lemma aborts_bind {A B : Type} (m : M W A) (k : A -> M W B) :
  aborts_on_failed_delete W m -> (forall a, aborts_on_failed_delete W (k a)) ->
  aborts_on_failed_delete W (bind W m k).
Proof.
  intros Hm Hk st; rewrite bind_unfold.
  destruct (Hm st) as [Hstops Hnone].
  destruct (result (m st)) as [a | e]; cbn [emitted result].
  - destruct (Hk a (final (m st))) as [Hstops2 Hnone2].
    split.
    + rewrite (stops_after_clean_prefix _ _ (Hnone a eq_refl)); exact Hstops2.
    + intros b Hb; rewrite existsb_app, (Hnone a eq_refl), (Hnone2 b Hb); reflexivity.
  - split; [ exact Hstops | discriminate ].
Qed.

Lemma aborts_delete_index index : aborts_on_failed_delete W (delete_index index).
Proof.
  intros st.
  assert (Hrun := delete_index_single_request_run index st).
  destruct (serve (world st) (index_deletion (self st) index)) as [w [answer | ]];
    cbn [snd] in Hrun.
  - unfold failed_delete.
    destruct (is_error_status (status_code answer)) eqn:Herr;
      destruct Hrun as [-> ->]; cbn -[is_error_status]; rewrite Herr;
      split; try reflexivity; discriminate.
  - destruct Hrun as [-> ->]; split; [ reflexivity | discriminate ].
Qed.

Lemma aborts_delete_if_old d entry : aborts_on_failed_delete W (delete_if_old d entry).
Proof.
  destruct entry as [index creation_date]; unfold delete_if_old.
  apply aborts_bind; [ | intros now ].
  - apply aborts_without_delete; all_events_auto.
  - destruct (float_gt_int _ _).
    + apply aborts_bind; [ apply aborts_without_delete; all_events_auto | intros again ].
      apply aborts_bind; [ apply aborts_without_delete; all_events_auto | intros _ ].
      apply aborts_delete_index.
    + apply aborts_without_delete; all_events_auto.
Qed.

Lemma aborts_for_each {A : Type} (body : A -> M W unit) xs :
  (forall x, aborts_on_failed_delete W (body x)) ->
  aborts_on_failed_delete W (for_each W body xs).
Proof.
  intros Hbody; induction xs as [ | x rest IH]; cbn.
  - apply aborts_without_delete, all_events_ret.
  - apply aborts_bind; [ apply Hbody | intros; apply IH ].
Qed.

(** X11. A delete request that yields no response, or a 4xx or 5xx status, is
    the last thing a run of the cleanup does: the run raises, the indices
    that come after it in the dict are neither tested nor deleted, and no
    completion message is logged. *)
Theorem clean_stops_at_a_failed_delete :
  forall (name : string) (d : Z) (st : St W),
    let run := clean_old_data_stream_indices name d st in
    stops_at_failed_delete (emitted run) = true
    /\ (existsb failed_delete (emitted run) = true -> exists e, result run = Raised e).
Proof.
  intros name d st run; subst run.
  assert (Haborts : aborts_on_failed_delete W (clean_old_data_stream_indices name d)).
  { unfold clean_old_data_stream_indices.
    apply aborts_bind; [ | intros present ].
    - apply aborts_without_delete; unfold does_data_stream_exist; all_events_auto.
    - destruct (negb present); [ apply aborts_without_delete; all_events_auto | ].
      apply aborts_bind;
        [ apply aborts_without_delete, backing_indices_no_delete | intros indices ].
      apply aborts_bind;
        [ apply aborts_without_delete, creation_dates_no_delete | intros dates ].
      apply aborts_bind;
        [ apply aborts_for_each; intros; apply aborts_delete_if_old | intros _ ].
      apply aborts_without_delete; all_events_auto. }
  destruct (Haborts st) as [Hstops Hnone].
  split; [ exact Hstops | ].
  intros Hfailed.
  destruct (result (clean_old_data_stream_indices name d st)) as [u | e];
    [ | exists e; reflexivity ].
  rewrite (Hnone u eq_refl) in Hfailed; discriminate.
Qed.

(** ** The command line *)

Lemma keeps_self_check_connection : keeps_self W check_connection.
Proof. unfold check_connection; keeps_self_auto. Qed.

Lemma keeps_self_create_data_stream name : keeps_self W (create_data_stream name).
Proof. unfold create_data_stream; keeps_self_auto. Qed.

Lemma keeps_self_rollover_data_stream name : keeps_self W (rollover_data_stream name).
Proof. unfold rollover_data_stream, does_data_stream_exist; keeps_self_auto. Qed.

Lemma keeps_self_clean name d : keeps_self W (clean_old_data_stream_indices name d).
Proof.
  unfold clean_old_data_stream_indices.
  apply keeps_self_bind; [ apply keeps_self_does_data_stream_exist | intros present ].
  destruct (negb present); [ apply keeps_self_emit | ].
  apply keeps_self_bind; [ apply keeps_self_backing_indices | intros indices ].
  apply keeps_self_bind; [ apply keeps_self_creation_dates | intros dates ].
  apply keeps_self_bind;
    [ apply keeps_self_for_each; intros; apply keeps_self_delete_if_old | intros ].
  apply keeps_self_emit.
Qed.

Lemma check_connection_run st :
  check_connection st =
    let (w, out) := serve (world st) (health_request (self st)) in
    mkRun (mkSt (self st) w)
          (EvHttp (health_request (self st)) out
             :: if answered_ok (EvHttp (health_request (self st)) out)
                then [EvLog INFO ConnectionSuccessful] else [])
          match out with
          | Responded r =>
              if is_error_status (status_code r)
              then Raised (HTTPError (status_code r)) else Ok tt
          | Failed => Raised RequestException
          end.
Proof.
  unfold check_connection, health_request; unfold_method.
  destruct (serve (world st) _) as [w [r | ]]; cbn -[append is_error_status];
    [ | reflexivity ].
  destruct (is_error_status (status_code r)); reflexivity.
Qed.

Lemma method_eqb_eq a b : method_eqb a b = true -> a = b.
Proof. destruct a, b; cbn; congruence. Qed.

(** A request of a list of events has one of the methods that the
    events are restricted to. *)
Lemma request_among_methods allowed m evs :
  forallb (only_methods allowed) evs = true ->
  existsb (is_request m) evs = true ->
  existsb (method_eqb m) allowed = true.
Proof.
  intros Hall Hsome.
  apply existsb_exists in Hsome; destruct Hsome as ([req out | t | level msg] & Hin & Hm);
    cbn in Hm; try discriminate.
  assert (H := proj1 (forallb_forall _ _) Hall _ Hin); cbn in H.
  apply method_eqb_eq in Hm; rewrite <- Hm; exact H.
Qed.

Lemma only_methods_weaken allowed allowed' e :
  forallb (fun m => existsb (method_eqb m) allowed') allowed = true ->
  only_methods allowed e = true -> only_methods allowed' e = true.
Proof.
  destruct e as [req out | t | level msg]; cbn; auto.
  intros Hincl Hm.
  apply existsb_exists in Hm; destruct Hm as (m & Hin & Heq).
  apply method_eqb_eq in Heq; subst m.
  exact (proj1 (forallb_forall _ _) Hincl _ Hin).
Qed.

(** What [dispatch] sends, by the action. *)
Lemma dispatch_methods args :
  all_events W
    (only_methods
       match action args, retention_period args with
       | Create, _ => [GET; PUT]
       | Rollover, _ => [GET; POST]
       | Clean, Some _ => [GET; DELETE]
       | Clean, None => [GET]
       end)
    (dispatch args).
Proof.
  unfold dispatch.
  destruct (action args).
  - apply all_events_bind; [ | intros _ ].
    + apply (all_events_weaken (only_methods [GET]));
        [ intros e; apply only_methods_weaken; reflexivity
        | apply check_connection_only_gets ].
    + apply all_events_bind; [ | intros; apply all_events_ret ].
      apply (all_events_weaken (only_methods [PUT]));
        [ intros e; apply only_methods_weaken; reflexivity
        | apply create_data_stream_only_puts ].
  - apply all_events_bind; [ | intros _ ].
    + apply (all_events_weaken (only_methods [GET]));
        [ intros e; apply only_methods_weaken; reflexivity
        | apply check_connection_only_gets ].
    + apply all_events_bind; [ | intros; apply all_events_ret ].
      apply rollover_only_gets_and_posts.
  - destruct (retention_period args) as [days | ].
    + apply all_events_bind; [ | intros _ ].
      * apply (all_events_weaken (only_methods [GET]));
          [ intros e; apply only_methods_weaken; reflexivity
          | apply check_connection_only_gets ].
      * apply all_events_bind; [ | intros; apply all_events_ret ].
        apply clean_only_gets_and_deletes.
    + apply all_events_bind; [ | intros _; apply all_events_ret ].
      apply check_connection_only_gets.
Qed.

(** X12. The script checks the connection before anything else: its first
    call is the cluster-health query, at the endpoint and with the
    credentials of the command line, and when that call yields no
    response or a 4xx or 5xx status it is the only event of the run,
    which ends with exit status 1, whatever the action. *)
Theorem main_checks_the_connection_first :
  forall (args : Args) (w : W),
    let this := OpenSearch_init (arg_url args) (arg_username args) (arg_password args) in
    let health :=
      {| method := GET;
         url := arg_url args ++ "/_cluster/health";
         json := None;
         req_auth := mkAuth (arg_username args) (arg_password args);
         verify := false |} in
    let out := snd (serve w health) in
    let run := main args w in
    (exists rest, emitted run = EvHttp health out :: rest)
    /\ (answered_ok (EvHttp health out) = false ->
          emitted run = [EvHttp health out] /\ exit_status (result run) = 1%Z).
Proof.
  intros args w this health out run; subst this health out run.
  unfold main, dispatch.
  rewrite bind_unfold, check_connection_run.
  unfold health_request, OpenSearch_init; cbn [self world opensearch_url auth].
  destruct (serve w _) as [w1 [r | ]]; cbn [snd answered_ok result emitted final].
  - destruct (is_error_status (status_code r)); cbn [negb result emitted final app].
    + split; [ eexists; reflexivity | intros _; split; reflexivity ].
    + split; [ eexists; reflexivity | discriminate ].
  - split; [ eexists; reflexivity | intros _; split; reflexivity ].
Qed.

(** X13. The action clean without a retention period: the script has already
    checked the connection when it reaches [parser.error]; so its run is
    that of [check_connection], the cluster-health query is its only
    request, and with the connection in order it ends in the usage error,
    exit status 2. *)
Theorem main_clean_without_retention_period :
  forall (args : Args) (w : W),
    action args = Clean ->
    retention_period args = None ->
    let st :=
      mkSt (OpenSearch_init (arg_url args) (arg_username args) (arg_password args)) w in
    let run := main args w in
    emitted run = emitted (check_connection st)
    /\ requests_of (emitted run) = [health_request (self st)]
    /\ (result (check_connection st) = Ok tt ->
          result run = Ok UsageError /\ exit_status (result run) = 2%Z).
Proof.
  intros args w Haction Hperiod st run; subst run.
  unfold main, dispatch; fold st.
  rewrite bind_unfold, Haction, Hperiod.
  rewrite check_connection_run.
  destruct (serve (world st) _) as [w1 [r | ]]; cbn -[append].
  - destruct (is_error_status (status_code r)); cbn -[append].
    + repeat split; discriminate.
    + repeat split; reflexivity.
  - repeat split; discriminate.
Qed.

(** X14. What the script sends besides GETs is decided by the action: a PUT
    only for create, a POST only for rollover, a DELETE only for clean
    with a retention period. *)
Theorem main_sends_by_action :
  forall (args : Args) (w : W),
    let evs := emitted (main args w) in
    (existsb (is_request PUT) evs = true -> action args = Create)
    /\ (existsb (is_request POST) evs = true -> action args = Rollover)
    /\ (existsb (is_request DELETE) evs = true ->
          action args = Clean /\ exists days, retention_period args = Some days).
Proof.
  intros args w evs; subst evs.
  assert (Hall := dispatch_methods args
    (mkSt (OpenSearch_init (arg_url args) (arg_username args) (arg_password args)) w)).
  fold (main args w) in Hall.
  split; [ | split ]; intros Hsome;
    assert (Hm := request_among_methods _ _ _ Hall Hsome);
    destruct (action args); destruct (retention_period args) as [days | ];
      cbn in Hm; try discriminate; try reflexivity.
  all: split; [ reflexivity | exists days; reflexivity ].
Qed.

(** X15. Every HTTP call of the script is made with the credentials and under
    the endpoint of the command line, without certificate
    verification. *)
Theorem main_calls_only_the_given_endpoint :
  forall (args : Args) (w : W),
    forallb
      (sent_as (OpenSearch_init (arg_url args) (arg_username args) (arg_password args)))
      (emitted (main args w)) = true.
Proof.
  intros args w.
  set (this := OpenSearch_init (arg_url args) (arg_username args) (arg_password args)).
  assert (Hcalls : calls_as W this (dispatch args)).
  { unfold dispatch.
    apply calls_as_bind;
      [ apply keeps_self_check_connection | apply calls_as_check_connection | intros _ ].
    destruct (action args).
    - apply calls_as_bind;
        [ apply keeps_self_create_data_stream | apply calls_as_create_data_stream | ].
      intros; apply calls_as_silent; intros; reflexivity.
    - apply calls_as_bind;
        [ apply keeps_self_rollover_data_stream | apply calls_as_rollover_data_stream | ].
      intros; apply calls_as_silent; intros; reflexivity.
    - destruct (retention_period args) as [days | ].
      + apply calls_as_bind; [ apply keeps_self_clean | apply calls_as_clean | ].
        intros; apply calls_as_silent; intros; reflexivity.
      + apply calls_as_silent; intros; reflexivity. }
  apply Hcalls; reflexivity.
Qed.

End Properties.

(** * Concrete runs *)

(** ** The existence check on an answer 404 *)

Lemma does_data_stream_exist_iff_200_witness :
  let st := Script.start [Script.status 404] [] in
  let run := does_data_stream_exist Script.World Script.serve "logs" st in
  (result run = Ok true <-> 404%Z = 200%Z)
  /\ (404%Z <> 200%Z -> result run = Ok false)
  /\ (forall e, result run <> Raised e).
Proof.
  exact (does_data_stream_exist_iff_200 Script.World Script.serve
           "logs" (Script.start [Script.status 404] [])
           ([], []) (mkResponse 404 None) eq_refl).
Defined.

(** ** Rollover and cleanup of a data stream that is not there *)

Lemma missing_data_stream_soft_fails_witness :
  let st := Script.start [Script.status 404] [] in
  exists out,
    emitted (does_data_stream_exist Script.World Script.serve "logs" st)
      = [EvHttp (data_stream_query (self st) "logs") out]
    /\ result (rollover_data_stream Script.World Script.serve "logs" st) = Ok tt
    /\ emitted (rollover_data_stream Script.World Script.serve "logs" st)
       = [EvHttp (data_stream_query (self st) "logs") out;
          EvLog ERROR (DataStreamDoesNotExist "logs")]
    /\ result (clean_old_data_stream_indices Script.World Script.serve Script.tick
                 "logs" 7 st) = Ok tt
    /\ emitted (clean_old_data_stream_indices Script.World Script.serve Script.tick
                  "logs" 7 st)
       = [EvHttp (data_stream_query (self st) "logs") out;
          EvLog ERROR (DataStreamDoesNotExist "logs")].
Proof.
  exact (missing_data_stream_soft_fails Script.World Script.serve Script.tick
           "logs" 7 (Script.start [Script.status 404] []) eq_refl).
Defined.

(** ** The connectivity check on an answer 300

    300 is no 2xx status, and [raise_for_status] lets it pass:
    [check_connection] logs success and returns. *)
Lemma check_connection_returns_on_300 :
  let st := Script.start [Script.status 300] [] in
  let run := check_connection Script.World Script.serve st in
  is_2xx 300 = false
  /\ result run = Ok tt
  /\ emitted run
     = [EvHttp (health_request Script.admin) (Script.status 300);
        EvLog INFO ConnectionSuccessful].
Proof. repeat split; reflexivity. Qed.

(** ** Creation *)

(** The template upsert is answered 300, which is no 2xx status: the
    method goes on and sends the data-stream creation request. *)
Lemma create_data_stream_goes_on_after_300_upsert :
  let st := Script.start [Script.status 300; Script.ok ToyStore.acknowledged] [] in
  let run := create_data_stream Script.World Script.serve "logs" st in
  is_2xx 300 = false
  /\ result run = Ok tt
  /\ emitted run
     = [EvHttp (template_upsert Script.admin "logs") (Script.status 300);
        EvLog INFO (CreatedIndexTemplate "logs-template");
        EvHttp (data_stream_creation Script.admin "logs")
               (Script.ok ToyStore.acknowledged);
        EvLog INFO (CreatedDataStream "logs")].
Proof. repeat split; reflexivity. Qed.

(** The creation request is answered 300, which is no 2xx status and not
    the 400 of an existing data stream: the method logs "Created data
    stream" and returns. *)
Lemma create_data_stream_returns_on_300_creation :
  let st := Script.start [Script.ok ToyStore.acknowledged; Script.status 300] [] in
  let run := create_data_stream Script.World Script.serve "logs" st in
  is_2xx 300 = false
  /\ (300 =? 400)%Z = false
  /\ result run = Ok tt
  /\ emitted run
     = [EvHttp (template_upsert Script.admin "logs") (Script.ok ToyStore.acknowledged);
        EvLog INFO (CreatedIndexTemplate "logs-template");
        EvHttp (data_stream_creation Script.admin "logs") (Script.status 300);
        EvLog INFO (CreatedDataStream "logs")].
Proof. repeat split; reflexivity. Qed.

(** The creation request is answered 400 "resource_already_exists_exception". *)
Lemma create_data_stream_already_exists_is_success_witness :
  let st := Script.start [Script.ok ToyStore.acknowledged; Script.already_exists] [] in
  let run := create_data_stream Script.World Script.serve "logs" st in
  result run = Ok tt
  /\ emitted run
     = [EvHttp (template_upsert Script.admin "logs") (Script.ok ToyStore.acknowledged);
        EvLog INFO (CreatedIndexTemplate "logs-template");
        EvHttp (data_stream_creation Script.admin "logs") Script.already_exists;
        EvLog INFO (DataStreamAlreadyExists "logs")].
Proof.
  exact (proj1
           (create_data_stream_already_exists_is_success
              Script.World Script.serve "logs"
              (Script.start [Script.ok ToyStore.acknowledged; Script.already_exists] [])
              ([Script.already_exists], []) ([], [])
              (mkResponse 200 (Some ToyStore.acknowledged))
              (mkResponse 400
                 (Some (JObj [ ("error",
                                JObj [ ("type", JStr "resource_already_exists_exception") ]);
                               ("status", JInt 400) ])))
              eq_refl eq_refl eq_refl)
           (conj eq_refl eq_refl)).
Defined.

(** Two calls in a row against the toy store. *)
Lemma create_data_stream_twice_succeeds_witness :
  let first := create_data_stream ToyStore.World ToyStore.serve "logs" ToyStore.start in
  let second := create_data_stream ToyStore.World ToyStore.serve "logs" (final first) in
  result first = Ok tt
  /\ result second = Ok tt
  /\ (exists before,
        emitted second = (before ++ [EvLog INFO (DataStreamAlreadyExists "logs")])%list).
Proof.
  exact (create_data_stream_twice_succeeds
           ToyStore.World ToyStore.serve "logs" ToyStore.start
           [] ["https://store:9200/_data_stream/logs"]
           ["https://store:9200/_data_stream/logs"]
           ["https://store:9200/_data_stream/logs"]
           (mkResponse 200 (Some ToyStore.acknowledged))
           (mkResponse 200 (Some ToyStore.acknowledged))
           (mkResponse 200 (Some ToyStore.acknowledged))
           (mkResponse 400
              (Some (JObj [ ("error",
                             JObj [ ("type", JStr "resource_already_exists_exception") ]);
                            ("status", JInt 400) ])))
           eq_refl eq_refl eq_refl eq_refl eq_refl eq_refl eq_refl eq_refl eq_refl).
Defined.

(** ** Cleanup *)


Example young_index_is_retained :
  result young_run = Ok tt
  /\ filter (is_request DELETE) (emitted young_run) = []
  /\ last (emitted young_run) (EvClock 0%Q) = EvLog INFO (FinishedCleaning "logs").
Proof. repeat split; reflexivity. Qed.

Example only_the_old_index_is_deleted :
  result scenario_run = Ok tt
  /\ filter (is_request DELETE) (emitted scenario_run)
     = [EvHttp (index_deletion Script.admin (JStr "a")) (Script.status 200)]
  /\ last (emitted scenario_run) (EvClock 0%Q) = EvLog INFO (FinishedCleaning "logs").
Proof. repeat split; reflexivity. Qed.

Example age_at_threshold_is_retained :
  filter (is_request DELETE) (emitted (boundary_run 86400%Q)) = []
  /\ filter (is_request DELETE) (emitted (boundary_run 86401%Q))
     = [EvHttp (index_deletion Script.admin (JStr "a")) (Script.status 200)].
Proof. repeat split; reflexivity. Qed.

(** A settings query that is answered 500 for the second index: the run
    raises, and no delete request has been sent for the first one, old
    as it is. *)
Example failed_settings_query_deletes_nothing :
  let run :=
    clean_old_data_stream_indices Script.World Script.serve Script.tick "logs" 7
      (Script.start
         [Script.ok (JObj []);
          Script.ok (Script.descriptor ["a"; "b"]);
          Script.ok (Script.settings "a" "308800000");
          Script.status 500]
         [1000000%Q]) in
  result run = Raised (HTTPError 500)
  /\ filter (is_request DELETE) (emitted run) = [].
Proof. repeat split; reflexivity. Qed.

(** Two spellings of one dict key: the index listed as [1] and then as
    [true] shares one entry, which keeps the first key and the last
    creation time. *)
Example dict_assign_keeps_first_key :
  dict_assign (JBool true) 2%Q (dict_assign (JInt 1) 1%Q []) = [(JInt 1, 2%Q)].
Proof. reflexivity. Qed.

(** ** More concrete runs *)

(** A rollover of a data stream that is there. *)
Lemma rollover_data_stream_when_present_witness :
  let run :=
    rollover_data_stream Script.World Script.serve "logs"
      (Script.start [Script.ok (JObj []); Script.status 200] []) in
  result run = Ok tt
  /\ emitted run
     = [EvHttp (data_stream_query Script.admin "logs") (Script.ok (JObj []));
        EvHttp (mkRequest POST "https://store:9200/logs/_rollover" None
                          (mkAuth "admin" "secret") false)
               (Script.status 200);
        EvLog INFO (RolloverDataStream "logs")].
Proof.
  exact (rollover_data_stream_when_present Script.World Script.serve "logs"
           (Script.start [Script.ok (JObj []); Script.status 200] [])
           ([Script.status 200], []) (mkResponse 200 (Some (JObj [])))
           eq_refl eq_refl).
Defined.

(** The store cannot be reached. *)
Lemma existence_query_failure_propagates_witness :
  let st := Script.start [Failed] [] in
  let sent := [EvHttp (data_stream_query (self st) "logs") Failed] in
  result (rollover_data_stream Script.World Script.serve "logs" st)
    = Raised RequestException
  /\ emitted (rollover_data_stream Script.World Script.serve "logs" st) = sent
  /\ result (clean_old_data_stream_indices Script.World Script.serve Script.tick
               "logs" 7 st) = Raised RequestException
  /\ emitted (clean_old_data_stream_indices Script.World Script.serve Script.tick
                "logs" 7 st) = sent.
Proof.
  exact (existence_query_failure_propagates Script.World Script.serve Script.tick
           "logs" 7 (Script.start [Failed] []) ([], []) eq_refl).
Defined.

(** The store answers the existence query 500. *)
Lemma any_other_status_reads_as_missing_witness :
  let st := Script.start [Script.status 500] [] in
  let sent := [EvHttp (data_stream_query (self st) "logs") (Script.status 500);
               EvLog ERROR (DataStreamDoesNotExist "logs")] in
  result (rollover_data_stream Script.World Script.serve "logs" st) = Ok tt
  /\ emitted (rollover_data_stream Script.World Script.serve "logs" st) = sent
  /\ result (clean_old_data_stream_indices Script.World Script.serve Script.tick
               "logs" 7 st) = Ok tt
  /\ emitted (clean_old_data_stream_indices Script.World Script.serve Script.tick
                "logs" 7 st) = sent.
Proof.
  refine (any_other_status_reads_as_missing Script.World Script.serve Script.tick
            "logs" 7 (Script.start [Script.status 500] []) ([], [])
            (mkResponse 500 None) eq_refl _).
  discriminate.
Defined.

(** The index "a" listed twice and "b" once: two entries. *)
Lemma creation_dates_cover_the_listed_indices_witness :
  let indices := [JStr "a"; JStr "a"; JStr "b"] in
  let run :=
    creation_dates Script.World Script.serve indices []
      (Script.start
         [Script.ok (Script.settings "a" "1000");
          Script.ok (Script.settings "a" "2000");
          Script.ok (Script.settings "b" "3000")] []) in
  exists dates,
    result run = Ok dates
    /\ map fst dates = [JStr "a"; JStr "b"]
    /\ distinct_keys dates = true
    /\ (List.length dates <= List.length indices)%nat
    /\ (forall k v, In (k, v) dates -> In k indices)
    /\ (forall index, In index indices ->
          exists k v, In (k, v) dates /\ (k = index \/ py_eq k index = true)).
Proof.
  eexists; split; [ reflexivity | ].
  split; [ reflexivity | ].
  apply (creation_dates_cover_the_listed_indices Script.World Script.serve
           [JStr "a"; JStr "a"; JStr "b"]
           (Script.start
              [Script.ok (Script.settings "a" "1000");
               Script.ok (Script.settings "a" "2000");
               Script.ok (Script.settings "b" "3000")] [])).
  reflexivity.
Defined.

(** The delete request of the scenario of section 8. *)
Lemma clean_deletes_only_listed_indices_witness :
  exists indices index,
    result
      (backing_indices Script.World Script.serve "logs"
         (final
            (does_data_stream_exist Script.World Script.serve "logs"
               (Script.start
                  [Script.ok (JObj []);
                   Script.ok (Script.descriptor ["a"; "b"]);
                   Script.ok (Script.settings "a" "308800000");
                   Script.ok (Script.settings "b" "913600000");
                   Script.status 200]
                  [1000000%Q; 1000000%Q; 1000000%Q]))))
      = Ok indices
    /\ In index indices
    /\ index_deletion Script.admin (JStr "a") = index_deletion Script.admin index.
Proof.
  apply (clean_deletes_only_listed_indices Script.World Script.serve Script.tick
           "logs" 7
           (Script.start
              [Script.ok (JObj []);
               Script.ok (Script.descriptor ["a"; "b"]);
               Script.ok (Script.settings "a" "308800000");
               Script.ok (Script.settings "b" "913600000");
               Script.status 200]
              [1000000%Q; 1000000%Q; 1000000%Q])
           (index_deletion Script.admin (JStr "a")) (Script.status 200)).
  - cbn; repeat (first [ left; reflexivity | right ]).
  - reflexivity.
Defined.

(** A data stream whose descriptor lists no index. *)
Lemma clean_of_a_data_stream_without_indices_witness :
  let st := Script.start [Script.ok (JObj []); Script.ok (Script.descriptor [])] [] in
  let run :=
    clean_old_data_stream_indices Script.World Script.serve Script.tick "logs" 7 st in
  result run = Ok tt
  /\ emitted run
     = (emitted (does_data_stream_exist Script.World Script.serve "logs" st)
          ++ emitted (backing_indices Script.World Script.serve "logs"
                        (final (does_data_stream_exist Script.World Script.serve "logs" st)))
          ++ [EvLog INFO (FinishedCleaning "logs")])%list.
Proof.
  exact (clean_of_a_data_stream_without_indices Script.World Script.serve Script.tick
           "logs" 7
           (Script.start [Script.ok (JObj []); Script.ok (Script.descriptor [])] [])
           eq_refl eq_refl).
Defined.

(** [clean] without [--retention-period], the store in order. *)
Lemma main_clean_without_retention_period_witness :
  let args := mkArgs Clean "logs" None "https://store:9200" "admin" "secret" in
  let run := main Script.World Script.serve Script.tick args ([Script.status 200], []) in
  emitted run
    = [EvHttp (health_request Script.admin) (Script.status 200);
       EvLog INFO ConnectionSuccessful]
  /\ requests_of (emitted run) = [health_request Script.admin]
  /\ result run = Ok UsageError
  /\ exit_status (result run) = 2%Z.
Proof.
  destruct (main_clean_without_retention_period Script.World Script.serve Script.tick
              (mkArgs Clean "logs" None "https://store:9200" "admin" "secret")
              ([Script.status 200], []) eq_refl eq_refl)
    as (Hev & Hreq & Hres).
  split; [ exact Hev | ].
  split; [ exact Hreq | ].
  exact (Hres eq_refl).
Defined.

(** The scenario of section 8, through the statement about the whole
    run: the index "a", eight days old, is the first entry of the dict and
    its delete request is in the run; the index "b", one day old, is
    reached after it and the loop body sends no delete request for it. *)
Lemma clean_deletes_iff_older_than_retention_witness :
  let dates := [(JStr "a", (308800000 # 1000)%Q); (JStr "b", (913600000 # 1000)%Q)] in
  let st :=
    Script.start
      [Script.ok (JObj []);
       Script.ok (Script.descriptor ["a"; "b"]);
       Script.ok (Script.settings "a" "308800000");
       Script.ok (Script.settings "b" "913600000");
       Script.status 200]
      [1000000%Q; 1000000%Q; 1000000%Q] in
  let dated :=
    creation_dates Script.World Script.serve [JStr "a"; JStr "b"] []
      (final (backing_indices Script.World Script.serve "logs"
                (final (does_data_stream_exist Script.World Script.serve "logs" st)))) in
  let reached :=
    for_each Script.World (delete_if_old Script.World Script.serve Script.tick 7)
             [(JStr "a", (308800000 # 1000)%Q)] (final dated) in
  result dated = Ok dates
  /\ (exists out,
        In (EvHttp (index_deletion Script.admin (JStr "a")) out) (emitted scenario_run))
  /\ existsb (is_request DELETE)
       (emitted (delete_if_old Script.World Script.serve Script.tick 7
                   (JStr "b", (913600000 # 1000)%Q) (final reached))) = false.
Proof.
  split; [ reflexivity | ].
  destruct (clean_deletes_iff_older_than_retention
              Script.World Script.serve Script.tick "logs" 7
              (Script.start
                 [Script.ok (JObj []);
                  Script.ok (Script.descriptor ["a"; "b"]);
                  Script.ok (Script.settings "a" "308800000");
                  Script.ok (Script.settings "b" "913600000");
                  Script.status 200]
                 [1000000%Q; 1000000%Q; 1000000%Q])
              [JStr "a"; JStr "b"]
              [(JStr "a", (308800000 # 1000)%Q); (JStr "b", (913600000 # 1000)%Q)]
              eq_refl eq_refl eq_refl)
    as (Hentries & _ & _).
  split.
  - destruct (Hentries [] (JStr "a") (308800000 # 1000)%Q
                [(JStr "b", (913600000 # 1000)%Q)] eq_refl eq_refl)
      as (_ & _ & Hold & _).
    destruct (Hold eq_refl) as (out & _ & Hin).
    exists out; exact Hin.
  - destruct (Hentries [(JStr "a", (308800000 # 1000)%Q)] (JStr "b")
                (913600000 # 1000)%Q [] eq_refl eq_refl)
      as (_ & Hiff & _ & _).
    destruct (existsb (is_request DELETE) _) eqn:Hsent; [ | reflexivity ].
    assert (Hgt := proj1 Hiff eq_refl).
    discriminate Hgt.
Defined.
